(** * aws-cost exporter: the cost collector of [aws-cost/main.py]

    A shallow embedding of the exporter's collector
    ([AWSCostMetricCollector]), of its configuration ([Constants]) and of
    the start-up script, together with the parts of the Python runtime
    and of the libraries the exporter computes with: [str.split] and
    [str.join], [float], [int] and [math.ceil], [datetime] arithmetic
    and [strftime], the insertion-ordered [dict], and the registration
    of a collector with the metrics registry. *)

From Stdlib Require Import ZArith List String Ascii Bool Lia.
From Stdlib Require Import Floats.SpecFloat.
Import ListNotations.

Local Open Scope string_scope.
Local Open Scope Z_scope.

(* ===================================================================== *)
(** ** Python strings *)
(* ===================================================================== *)

Module PyStr.

(** Characters are code points below 256.  [isspace] is the predicate
    behind [str.split()] on that range: TAB..CR, FS..US, SPACE, NEL and
    NBSP. *)
Definition isspace (c : ascii) : bool :=
  let n := Z.of_nat (nat_of_ascii c) in
  ((9 <=? n) && (n <=? 13)) || ((28 <=? n) && (n <=? 32))
  || (n =? 133) || (n =? 160).

Definition is_empty (s : string) : bool :=
  match s with EmptyString => true | String _ _ => false end.

(** [split_from w s]: the words of [s], where [w] is the word being
    read.  A word ends at a whitespace character or at the end of the
    string; runs of whitespace produce no empty word. *)
Fixpoint split_from (w s : string) : list string :=
  match s with
  | EmptyString => if is_empty w then [] else [w]
  | String c s' =>
      if isspace c
      then (if is_empty w then split_from "" s' else w :: split_from "" s')
      else split_from (w ++ String c "") s'
  end.

(** [s.split()] with no separator. *)
Definition split (s : string) : list string := split_from "" s.

(** [sep.join(l)]. *)
Definition join (sep : string) (l : list string) : string :=
  String.concat sep l.

Fixpoint has_space (s : string) : bool :=
  match s with
  | EmptyString => false
  | String c s' => isspace c || has_space s'
  end.

(** The characters the readers of numbers, [float] and [int], skip at
    the two ends of a text.  In a [bytes] value these are TAB..CR and
    SPACE; in a [str] also NEL and NBSP, which the readers take for a
    space.  FS..US are whitespace for [str.split()] but not for them. *)
Definition is_c_space (c : ascii) : bool :=
  let n := Z.of_nat (nat_of_ascii c) in
  ((9 <=? n) && (n <=? 13)) || (n =? 32).

Definition is_number_space (c : ascii) : bool :=
  let n := Z.of_nat (nat_of_ascii c) in
  is_c_space c || (n =? 133) || (n =? 160).

(** The characters for which [blank] holds removed at both ends. *)
Fixpoint lstrip (blank : ascii -> bool) (s : string) : string :=
  match s with
  | EmptyString => EmptyString
  | String c s' => if blank c then lstrip blank s' else s
  end.

Fixpoint rstrip (blank : ascii -> bool) (s : string) : string :=
  match s with
  | EmptyString => EmptyString
  | String c s' =>
      let r := rstrip blank s' in
      if is_empty r && blank c then EmptyString else String c r
  end.

Definition strip (blank : ascii -> bool) (s : string) : string :=
  rstrip blank (lstrip blank s).

End PyStr.

(** The service key of a group, line 124:
    ["_".join(r["Keys"][0].split())]. *)
Definition normalize_service (name : string) : string :=
  PyStr.join "_" (PyStr.split name).


(* ===================================================================== *)
(** ** Exceptions and results *)
(* ===================================================================== *)

(** The exceptions the modelled code can raise. [ClientError] stands for
    any failure of a service call made through boto3 (throttling, expired
    token, endpoint unreachable, access denied); it carries the operation
    and the error code.  [OSError] is what the system raises when a file
    cannot be opened or a port cannot be taken, and [YAMLError] what the
    YAML reader raises on a text it cannot parse. *)
Inductive exn : Type :=
| KeyError (key : string)
| IndexError
| ValueError
| TypeError
| AttributeError
| OverflowError
| OSError (reason : string)
| YAMLError
| JSONDecodeError
| ClientError (operation code : string).

Inductive result (A : Type) : Type :=
| Ok (a : A)
| Raise (e : exn).
Arguments Ok {A} a.
Arguments Raise {A} e.

Definition rbind {A B : Type} (r : result A) (k : A -> result B) : result B :=
  match r with
  | Ok a => k a
  | Raise e => Raise e
  end.

Declare Scope result_scope.
Delimit Scope result_scope with result.
Notation "x <?- c ;; k" := (rbind c (fun x => k))
  (at level 61, c at next level, right associativity) : result_scope.

(** [o] or, when the value is absent, the exception [e]. *)
Definition or_raise {A : Type} (e : exn) (o : option A) : result A :=
  match o with
  | Some a => Ok a
  | None => Raise e
  end.

(* ===================================================================== *)
(** ** Python dictionaries *)
(* ===================================================================== *)

(** A [dict] with string keys keeps its entries in insertion order and
    assigning to a key that is present replaces the value in place. *)
Module PyDict.
Section Dict.
Context {V : Type}.

Definition dict : Type := list (string * V).

Definition empty : dict := [].

Fixpoint get (d : dict) (k : string) : option V :=
  match d with
  | [] => None
  | (k', v) :: r => if String.eqb k' k then Some v else get r k
  end.

(** [d[k] = v] *)
Fixpoint set (d : dict) (k : string) (v : V) : dict :=
  match d with
  | [] => [(k, v)]
  | (k', v') :: r =>
      if String.eqb k' k then (k', v) :: r else (k', v') :: set r k v
  end.

(** [d[k]] *)
Definition getitem (d : dict) (k : string) : result V :=
  or_raise (KeyError k) (get d k).

Definition items (d : dict) : list (string * V) := d.

Definition keys (d : dict) : list string := map fst d.

End Dict.
Arguments dict V : clear implicits.
End PyDict.

(* ===================================================================== *)
(** ** Python floats *)
(* ===================================================================== *)

(** [float] is IEEE 754 binary64, here the specification floats of the
    standard library at precision 53 and maximal exponent 1024. *)
Module PyFloat.

Definition prec : Z := 53.
Definition emax : Z := 1024.
Definition float : Type := spec_float.

(** [0.0] *)
Definition zero : float := S754_zero false.

(** [x + y], rounded to nearest, ties to even. *)
Definition add (x y : float) : float := SFadd prec emax x y.

(** The double nearest to [m * 10^e10] (ties to even), negated when
    [neg]; [m] is not negative. *)
Definition of_decimal (neg : bool) (m : Z) (e10 : Z) : float :=
  match m with
  | Zpos p =>
      if 0 <=? e10
      then
        let n := (p * Z.to_pos (10 ^ e10))%positive in
        binary_normalize prec emax (if neg then Zneg n else Zpos n) 0 false
      else
        let '(q, e, l) :=
          SFdiv_core_binary prec emax m 0 (10 ^ (- e10)) 0 in
        binary_round_aux prec emax neg q e l
  | _ => S754_zero neg
  end.

Definition digit_of (c : ascii) : option Z :=
  let n := Z.of_nat (nat_of_ascii c) in
  if (48 <=? n) && (n <=? 57) then Some (n - 48) else None.

(** The rest of a digit part: [(["_"] digit)*].  Returns the digits read
    and what follows them. *)
Fixpoint digitpart_more (s : string) : list Z * string :=
  match s with
  | String c s' =>
      match digit_of c with
      | Some d => let '(ds, r) := digitpart_more s' in (d :: ds, r)
      | None =>
          if Ascii.eqb c "_" then
            match s' with
            | String c' s'' =>
                match digit_of c' with
                | Some d =>
                    let '(ds, r) := digitpart_more s'' in (d :: ds, r)
                | None => ([], s)
                end
            | EmptyString => ([], s)
            end
          else ([], s)
      end
  | EmptyString => ([], s)
  end.

(** [digitpart ::= digit (["_"] digit)*]; no digit read when [s] does
    not start with one. *)
Definition digitpart (s : string) : list Z * string :=
  match s with
  | String c s' =>
      match digit_of c with
      | Some d => let '(ds, r) := digitpart_more s' in (d :: ds, r)
      | None => ([], s)
      end
  | EmptyString => ([], s)
  end.

Definition Z_of_digits (ds : list Z) : Z :=
  fold_left (fun acc d => 10 * acc + d) ds 0.

Definition sign_of (s : string) : bool * string :=
  match s with
  | String "-" r => (true, r)
  | String "+" r => (false, r)
  | _ => (false, s)
  end.

Definition lower (c : ascii) : ascii :=
  let n := Z.of_nat (nat_of_ascii c) in
  if (65 <=? n) && (n <=? 90) then ascii_of_nat (Z.to_nat (n + 32)) else c.

Fixpoint lower_str (s : string) : string :=
  match s with
  | EmptyString => EmptyString
  | String c r => String (lower c) (lower_str r)
  end.

(** [exponent ::= ("e" | "E") ["+" | "-"] digitpart], or nothing. *)
Definition exponent (s : string) : option Z :=
  match s with
  | EmptyString => Some 0
  | String c r =>
      if Ascii.eqb (lower c) "e" then
        let '(neg, r1) := sign_of r in
        match digitpart r1 with
        | ((_ :: _) as ds, EmptyString) =>
            Some (if neg then - Z_of_digits ds else Z_of_digits ds)
        | _ => None
        end
      else None
  end.

(** The number a stripped text denotes:
    [[sign] ("inf" | "infinity" | "nan" | floatnumber)], case-insensitive,
    with [floatnumber ::= (digitpart ["." [digitpart]] | "." digitpart)
    [exponent]]. *)
Definition of_stripped (text : string) : option float :=
  let '(neg, body) := sign_of text in
  let low := lower_str body in
  if String.eqb low "inf" || String.eqb low "infinity"
  then Some (S754_infinity neg)
  else if String.eqb low "nan" then Some S754_nan
  else
    let '(ip, r1) := digitpart body in
    let '(fp, r2) :=
      match r1 with
      | String "." r => digitpart r
      | _ => ([], r1)
      end in
    match (ip ++ fp)%list with
    | [] => None
    | ds =>
        match exponent r2 with
        | Some e =>
            Some (of_decimal neg (Z_of_digits ds)
                             (e - Z.of_nat (List.length fp)))
        | None => None
        end
    end.

(** [float(text)] on a [str]: the text without the blanks at its ends
    is read; [ValueError] when it is not a number. *)
Definition of_string (text : string) : result float :=
  or_raise ValueError (of_stripped (PyStr.strip PyStr.is_number_space text)).

(** [math.ceil(x)]: the least integer not below [x]; [OverflowError] on
    an infinity and [ValueError] on a NaN. *)
Definition ceil (x : float) : result Z :=
  match x with
  | S754_zero _ => Ok 0
  | S754_finite s m e =>
      let z := if s then Zneg m else Zpos m in
      Ok (if 0 <=? e then z * 2 ^ e else - ((- z) / 2 ^ (- e)))
  | S754_infinity _ => Raise OverflowError
  | S754_nan => Raise ValueError
  end.

End PyFloat.

(* ===================================================================== *)
(** ** Python integers *)
(* ===================================================================== *)

(** [int(x)] in base 10. *)
Module PyInt.

(** The longest run of digits [int] converts; a longer one is refused. *)
Definition MAX_STR_DIGITS : Z := 4300.

(** [int(text)]: blanks at the ends, a sign, and then
    [digit (["_"] digit)*] up to the end of the text. *)
Definition of_text (blank : ascii -> bool) (text : string) : result Z :=
  let '(neg, body) := PyFloat.sign_of (PyStr.strip blank text) in
  match PyFloat.digitpart body with
  | ((_ :: _) as ds, EmptyString) =>
      if MAX_STR_DIGITS <? Z.of_nat (List.length ds) then Raise ValueError
      else
        let n := PyFloat.Z_of_digits ds in
        Ok (if neg then - n else n)
  | _ => Raise ValueError
  end.

(** [int(x)] on a float: the integer part, towards zero. *)
Definition of_float (x : PyFloat.float) : result Z :=
  match x with
  | S754_zero _ => Ok 0
  | S754_finite s m e =>
      let z := if s then Zneg m else Zpos m in
      Ok (if 0 <=? e then z * 2 ^ e else Z.quot z (2 ^ (- e)))
  | S754_infinity _ => Raise OverflowError
  | S754_nan => Raise ValueError
  end.

End PyInt.

(* ===================================================================== *)
(** ** Python dates and times *)
(* ===================================================================== *)

(** The proleptic Gregorian calendar of the [datetime] module: ordinals
    count days from 0001-01-01, which is day 1. *)
Module PyDate.

Definition MINYEAR : Z := 1.
Definition MAXYEAR : Z := 9999.
Definition MAXORDINAL : Z := 3652059.

Definition DAYS_IN_MONTH : list Z :=
  [-1; 31; 28; 31; 30; 31; 30; 31; 31; 30; 31; 30; 31].

Definition DAYS_BEFORE_MONTH : list Z :=
  [-1; 0; 31; 59; 90; 120; 151; 181; 212; 243; 273; 304; 334].

Definition table (t : list Z) (i : Z) : Z := nth (Z.to_nat i) t 0.

Definition is_leap (year : Z) : bool :=
  (year mod 4 =? 0) && (negb (year mod 100 =? 0) || (year mod 400 =? 0)).

Definition days_before_year (year : Z) : Z :=
  let y := year - 1 in
  y * 365 + y / 4 - y / 100 + y / 400.

Definition days_in_month (year month : Z) : Z :=
  if (month =? 2) && is_leap year then 29 else table DAYS_IN_MONTH month.

Definition days_before_month (year month : Z) : Z :=
  table DAYS_BEFORE_MONTH month
  + (if (2 <? month) && is_leap year then 1 else 0).

Definition ymd2ord (year month day : Z) : Z :=
  days_before_year year + days_before_month year month + day.

Definition DI400Y : Z := 146097.
Definition DI100Y : Z := 36524.
Definition DI4Y : Z := 1461.

(** Month and day of the [n]-th day (from 0) of a year. *)
Definition month_day (leapyear : bool) (n : Z) : Z * Z :=
  let month := Z.shiftr (n + 50) 5 in
  let preceding :=
    table DAYS_BEFORE_MONTH month
    + (if (2 <? month) && leapyear then 1 else 0) in
  let '(month, preceding) :=
    if n <? preceding
    then (month - 1,
          preceding - (table DAYS_IN_MONTH (month - 1)
                       + (if (month - 1 =? 2) && leapyear then 1 else 0)))
    else (month, preceding) in
  (month, n - preceding + 1).

Definition ord2ymd (n : Z) : Z * Z * Z :=
  let n := n - 1 in
  let n400 := n / DI400Y in
  let n := n mod DI400Y in
  let year := n400 * 400 + 1 in
  let n100 := n / DI100Y in
  let n := n mod DI100Y in
  let n4 := n / DI4Y in
  let n := n mod DI4Y in
  let n1 := n / 365 in
  let n := n mod 365 in
  let year := year + n100 * 100 + n4 * 4 + n1 in
  if (n1 =? 4) || (n100 =? 4) then (year - 1, 12, 31)
  else
    let leapyear := (n1 =? 3) && (negb (n4 =? 24) || (n100 =? 3)) in
    let '(month, day) := month_day leapyear n in
    (year, month, day).

Record datetime : Type := {
  year : Z; month : Z; day : Z;
  hour : Z; minute : Z; second : Z; microsecond : Z }.

Record timedelta : Type := {
  td_days : Z; td_seconds : Z; td_microseconds : Z }.

(** [timedelta(days=n)] *)
Definition timedelta_days (n : Z) : timedelta :=
  {| td_days := n; td_seconds := 0; td_microseconds := 0 |}.

Definition check_date_fields (y m d : Z) : bool :=
  (MINYEAR <=? y) && (y <=? MAXYEAR) && (1 <=? m) && (m <=? 12)
  && (1 <=? d) && (d <=? days_in_month y m).

Definition check_time_fields (h mi s us : Z) : bool :=
  (0 <=? h) && (h <=? 23) && (0 <=? mi) && (mi <=? 59)
  && (0 <=? s) && (s <=? 59) && (0 <=? us) && (us <=? 999999).

(** The values of the type: what the constructor accepts. *)
Definition valid (t : datetime) : bool :=
  check_date_fields (year t) (month t) (day t)
  && check_time_fields (hour t) (minute t) (second t) (microsecond t).

(** [datetime(year=y, month=m, day=d)]: midnight of that day. *)
Definition datetime_ymd (y m d : Z) : result datetime :=
  if check_date_fields y m d
  then Ok {| year := y; month := m; day := d;
             hour := 0; minute := 0; second := 0; microsecond := 0 |}
  else Raise ValueError.

Definition toordinal (t : datetime) : Z :=
  ymd2ord (year t) (month t) (day t).

Definition US_PER_SECOND : Z := 1000000.
Definition US_PER_DAY : Z := 86400 * US_PER_SECOND.

(** Microseconds from the start of day 0 to [t]. *)
Definition to_microseconds (t : datetime) : Z :=
  toordinal t * US_PER_DAY
  + (hour t * 3600 + minute t * 60 + second t) * US_PER_SECOND
  + microsecond t.

Definition timedelta_microseconds (d : timedelta) : Z :=
  td_days d * US_PER_DAY + td_seconds d * US_PER_SECOND + td_microseconds d.

(** [t - d]: the time line is the ordinal with the time of day; the
    result must fall on a day the type has. *)
Definition sub (t : datetime) (d : timedelta) : result datetime :=
  let total := to_microseconds t - timedelta_microseconds d in
  let days := total / US_PER_DAY in
  let rest := total mod US_PER_DAY in
  let seconds := rest / US_PER_SECOND in
  if (0 <? days) && (days <=? MAXORDINAL) then
    let '(y, m, dd) := ord2ymd days in
    Ok {| year := y; month := m; day := dd;
          hour := seconds / 3600;
          minute := (seconds mod 3600) / 60;
          second := (seconds mod 3600) mod 60;
          microsecond := rest mod US_PER_SECOND |}
  else Raise OverflowError.

Definition digit_char (d : Z) : ascii := ascii_of_nat (Z.to_nat (48 + d)).

(** [n] in [w] decimal digits, zero-padded. *)
Fixpoint zfill (w : nat) (n : Z) : string :=
  match w with
  | O => EmptyString
  | S w' => zfill w' (n / 10) ++ String (digit_char (n mod 10)) EmptyString
  end.

(** [n] in decimal digits, without padding, for [n] below [10^w]. *)
Fixpoint decimal (w : nat) (n : Z) : string :=
  match w with
  | O => EmptyString
  | S w' =>
      if n <? 10 then String (digit_char n) EmptyString
      else decimal w' (n / 10) ++ String (digit_char (n mod 10)) EmptyString
  end.

(** [t.strftime("%Y-%m-%d")], which is the C library's [strftime]: that
    of Linux writes the year as it is, so a year below 1000 has less
    than four digits, and pads the month and the day to two. *)
Definition strftime_ymd (t : datetime) : string :=
  decimal 4 (year t) ++ "-" ++ zfill 2 (month t) ++ "-" ++ zfill 2 (day t).

End PyDate.

(* ===================================================================== *)
(** ** Shapes of the service calls *)
(* ===================================================================== *)

(** A JSON value; the cost filter is one, passed on as configured. *)
Unset Elimination Schemes.
Inductive json : Type :=
| JNull
| JBool (b : bool)
| JNumber (text : string)
| JString (s : string)
| JArray (l : list json)
| JObject (members : list (string * json)).
Set Elimination Schemes.

(** The time period of a query, [{"Start": ..., "End": ...}]. *)
Record TimeRange : Type := { Start : string; End_ : string }.

(** [{"Type": ..., "Key": ...}] *)
Record GroupDefinition : Type := { Type_ : string; Key : string }.

Module Request.
(** The keyword arguments of [get_cost_and_usage]. *)
Record t : Type := {
  TimePeriod : TimeRange;
  Granularity : string;
  Metrics : list string;
  Filter : json;
  GroupBy : list GroupDefinition }.
End Request.

(** The response of [get_cost_and_usage]; a member the service leaves out
    is absent from the dictionary boto3 returns. *)
Record MetricValue : Type := { Amount : option string; Unit : option string }.

Record Group : Type := {
  Keys : list string;
  Metrics : PyDict.dict MetricValue }.

Record ResultByTime : Type := { Groups : list Group }.

Record CostResponse : Type := { ResultsByTime : list ResultByTime }.

(** The response of [assume_role]. *)
Record Credentials : Type := {
  AccessKeyId : string;
  SecretAccessKey : string;
  SessionToken : string }.

Record AssumeRoleResponse : Type := { RoleCredentials : Credentials }.

(** A boto3 session: the ambient credentials of the process, or the
    temporary credentials of an assumed role in a region. *)
Inductive Session : Type :=
| AmbientSession
| AssumedSession (region_name aws_access_key_id aws_secret_access_key
                  aws_session_token : string).

(** A client is bound to the session it was created from. *)
Record Client : Type := { client_service : string; client_session : Session }.

(* ===================================================================== *)
(** ** The exporter's data *)
(* ===================================================================== *)

(** A value [yaml.safe_load] gives to a key.  [YOther] is a sequence, a
    mapping, a set or a timestamp. *)
Inductive yaml : Type :=
| YNull
| YBool (b : bool)
| YInt (z : Z)
| YFloat (x : PyFloat.float)
| YStr (s : string)
| YBinary (b : string)
| YOther.

(** [int(v)] *)
Definition int (v : yaml) : result Z :=
  match v with
  | YInt z => Ok z
  | YBool b => Ok (if b then 1 else 0)
  | YFloat x => PyInt.of_float x
  | YStr s => PyInt.of_text PyStr.is_number_space s
  | YBinary b => PyInt.of_text PyStr.is_c_space b
  | YNull | YOther => Raise TypeError
  end.

(** The keys [Constants] reads from a loaded mapping; [None] is an
    absent key.  The two keys the code converts with [int] hold any
    value; the others hold the text the code hands on as it is. *)
Record Config : Type := {
  cfg_scrape_interval : option yaml;
  cfg_port : option yaml;
  cfg_project : option string;
  cfg_role_arn : option string;
  cfg_region : option string;
  cfg_cost_type : option string;
  cfg_filter : option string }.

(** What [yaml.safe_load] returns: a mapping, or something else ([None]
    for an empty file, a scalar, a sequence). *)
Inductive document : Type :=
| Mapping (c : Config)
| NotMapping.

Record Constants : Type := {
  scrape_interval : Z;
  port : Z;
  project : string;
  role_arn : string;
  region : string;
  cost_type : string;
  cost_filter : json }.

(** The attributes of a collector, [self.x] in the source. *)
Record AWSCostMetricCollector : Type := {
  self_project : string;
  self_role_arn : string;
  self_region : string;
  self_sts : Client;
  self_ce : Client;
  self_time_range : TimeRange;
  self_cost_type : string;
  self_cost_filter : json }.

(** [{"Cost": dict(), "Total": 0.0}] *)
Record CostAsPerService : Type := {
  Cost : PyDict.dict Z;
  Total : PyFloat.float }.

(** A sample value is the integer cost of a service or the float total. *)
Inductive sample_value : Type :=
| IntValue (z : Z)
| FloatValue (f : PyFloat.float).

Record Sample : Type := {
  sample_name : string;
  sample_labels : PyDict.dict string;
  value : sample_value }.

Record Metric : Type := {
  metric_name : string;
  documentation : string;
  typ : string;
  samples : list Sample }.

(** [Metric(name, documentation, typ)] *)
Definition Metric_new (name doc ty : string) : Metric :=
  {| metric_name := name; documentation := doc; typ := ty; samples := [] |}.

(** [metric.add_sample(name, value=v, labels=l)] *)
Definition add_sample (m : Metric) (name : string) (v : sample_value)
    (labels : PyDict.dict string) : Metric :=
  {| metric_name := metric_name m; documentation := documentation m;
     typ := typ m;
     samples := samples m
                ++ [{| sample_name := name; sample_labels := labels;
                       value := v |}] |}.

(* ===================================================================== *)
(** ** The world the exporter runs in *)
(* ===================================================================== *)

Inductive printed : Type :=
| PText (s : string)
| PConfig (c : Constants)
| PStarted (port : Z)
| PCosts (window : TimeRange) (c : CostAsPerService).

(** What the process does to its surroundings, in the order it does it. *)
Inductive event : Type :=
| EvPrint (p : printed)
| EvStartHttpServer (port : Z)
| EvClient (service : string)
| EvSetupDefaultSession (s : Session)
| EvAssumeRole (RoleArn RoleSessionName : string)
| EvGetCostAndUsage (s : Session) (req : Request.t)
| EvRegister (collector : AWSCostMetricCollector).

(** The clock, the services the process calls, the system's answer to
    a request for a port, boto3's default session, the names of the time
    series registered with [REGISTRY] and the events so far.  Between
    two calls of the exporter's code the surroundings may change in any
    way: a later call runs in another world. *)
Record World : Type := {
  clock : PyDate.datetime;
  sts_assume_role : string -> string -> result AssumeRoleResponse;
  ce_get_cost_and_usage : Session -> Request.t -> result CostResponse;
  json_loads : string -> result json;
  http_listen : Z -> result unit;
  default_session : option Session;
  registry : list string;
  events : list event }.

Definition with_events (w : World) (l : list event) : World :=
  {| clock := clock w; sts_assume_role := sts_assume_role w;
     ce_get_cost_and_usage := ce_get_cost_and_usage w;
     json_loads := json_loads w; http_listen := http_listen w;
     default_session := default_session w; registry := registry w;
     events := l |}.

Definition with_default_session (w : World) (s : Session) : World :=
  {| clock := clock w; sts_assume_role := sts_assume_role w;
     ce_get_cost_and_usage := ce_get_cost_and_usage w;
     json_loads := json_loads w; http_listen := http_listen w;
     default_session := Some s; registry := registry w;
     events := events w |}.

Definition with_registry (w : World) (names : list string) : World :=
  {| clock := clock w; sts_assume_role := sts_assume_role w;
     ce_get_cost_and_usage := ce_get_cost_and_usage w;
     json_loads := json_loads w; http_listen := http_listen w;
     default_session := default_session w; registry := names;
     events := events w |}.

(** Code that acts on the world and returns or raises. *)
Definition M (A : Type) : Type := World -> result A * World.

Definition ret {A : Type} (a : A) : M A := fun w => (Ok a, w).

Definition bind {A B : Type} (c : M A) (k : A -> M B) : M B :=
  fun w =>
    match c w with
    | (Ok a, w') => k a w'
    | (Raise e, w') => (Raise e, w')
    end.

Definition lift {A : Type} (r : result A) : M A := fun w => (r, w).

Definition emit (ev : event) : M unit :=
  fun w => (Ok tt, with_events w (events w ++ [ev])).

Declare Scope world_scope.
Delimit Scope world_scope with world.
Notation "x <- c ;; k" := (bind c (fun x => k))
  (at level 61, c at next level, right associativity) : world_scope.
Notation "c ;; k" := (bind c (fun _ => k))
  (at level 61, right associativity) : world_scope.

Local Open Scope world_scope.

(** [print(...)] *)
Definition print (p : printed) : M unit := emit (EvPrint p).

(** [datetime.utcnow()] *)
Definition datetime_utcnow : M PyDate.datetime := fun w => (Ok (clock w), w).

(** [boto3.client(service)]: a client on the default session, which is
    created from the ambient credentials when there is none yet. *)
Definition boto3_client (service : string) : M Client :=
  fun w =>
    let s := match default_session w with
             | Some s => s
             | None => AmbientSession
             end in
    (Ok {| client_service := service; client_session := s |},
     with_events (with_default_session w s) (events w ++ [EvClient service])).

(** [boto3.setup_default_session(...)] *)
Definition boto3_setup_default_session (s : Session) : M unit :=
  fun w =>
    (Ok tt,
     with_events (with_default_session w s)
                 (events w ++ [EvSetupDefaultSession s])).

(** [sts.assume_role(RoleArn=..., RoleSessionName=...)] *)
Definition assume_role (sts : Client) (arn name : string)
  : M AssumeRoleResponse :=
  emit (EvAssumeRole arn name) ;;
  fun w => (sts_assume_role w arn name, w).

(** [ce.get_cost_and_usage(...)] *)
Definition get_cost_and_usage (ce : Client) (req : Request.t)
  : M CostResponse :=
  emit (EvGetCostAndUsage (client_session ce) req) ;;
  fun w => (ce_get_cost_and_usage w (client_session ce) req, w).

(** [start_http_server(port)]: the server listens on the port from then
    on.  The system may refuse the port (it may be taken, or not be the
    process's to take, or not resolve to an address), which raises its
    error; a port outside 0..65535 that the system lets through is
    refused when the socket is bound, with [OverflowError]. *)
Definition start_http_server (p : Z) : M unit :=
  fun w =>
    match http_listen w p with
    | Raise e => (Raise e, w)
    | Ok _ =>
        if (0 <=? p) && (p <=? 65535) then emit (EvStartHttpServer p) w
        else (Raise OverflowError, w)
    end.

(** [l[i]] on a list. *)
Definition list_getitem {A : Type} (l : list A) (i : nat) : result A :=
  or_raise IndexError (nth_error l i).

(** A [for] loop whose body updates [s] and may raise. *)
Fixpoint for_each {A S : Type} (body : S -> A -> result S) (l : list A)
    (s : S) : result S :=
  match l with
  | [] => Ok s
  | a :: r => rbind (body s a) (for_each body r)
  end.

(* ===================================================================== *)
(** ** [Constants] *)
(* ===================================================================== *)

Definition dq : string := String (ascii_of_nat 34) EmptyString.

(** [s] between double quotes. *)
Definition quoted (s : string) : string := dq ++ s ++ dq.

(** The default of the [filter] key, lines 28-39, token by token (the
    line breaks and the indentation of the literal are left out).  The
    comma after the list of values, before the closing brace, is in the
    source; what [json.loads] makes of the text is up to the reader of
    the world. *)
Definition DEFAULT_FILTER : string :=
  "{" ++ quoted "Not" ++ ": {" ++ quoted "Dimensions" ++ ": {"
  ++ quoted "Key" ++ ": " ++ quoted "RECORD_TYPE" ++ ", "
  ++ quoted "Values" ++ ": [" ++ quoted "Credit" ++ ", "
  ++ quoted "Refund" ++ ", "
  ++ quoted "Enterprise Discount Program Discount" ++ "], }}}".

Definition get_or {A : Type} (o : option A) (default : A) : A :=
  match o with
  | Some a => a
  | None => default
  end.

(** [Constants.__init__], lines 16-41.  What is not a mapping has no
    [get]: the first line raises [AttributeError]. *)
Definition Constants_init (config : document) : M Constants :=
  match config with
  | NotMapping => lift (Raise AttributeError)
  | Mapping config =>
      days <- lift (int (get_or (cfg_scrape_interval config) (YInt 1))) ;;
      let scrape_interval := days * 86400 in
      port <- lift (int (get_or (cfg_port config) (YInt 4298))) ;;
      project <- lift (or_raise (KeyError "project") (cfg_project config)) ;;
      role_arn <- lift (or_raise (KeyError "role_arn") (cfg_role_arn config)) ;;
      let region := get_or (cfg_region config) "us-east-1" in
      let cost_type := get_or (cfg_cost_type config) "AmortizedCost" in
      cost_filter <- (fun w =>
        (json_loads w (get_or (cfg_filter config) DEFAULT_FILTER), w)) ;;
      ret {| scrape_interval := scrape_interval; port := port;
             project := project; role_arn := role_arn; region := region;
             cost_type := cost_type; cost_filter := cost_filter |}
  end.

(** [Constants.exporter_config], lines 43-53: a dictionary with one entry
    per attribute, under the attribute's name except for [cost_filter],
    which is under ["filter"]. *)
Definition exporter_config (self : Constants) : Constants := self.

(** [Constants.log_config], lines 55-66. *)
Definition log_config (self : Constants) : M unit := print (PConfig self).

(* ===================================================================== *)
(** ** [AWSCostMetricCollector] *)
(* ===================================================================== *)

(** [__switch_to_client_account], lines 83-98; it reads [self.__sts],
    [self.role_arn] and [self.region]. *)
Definition switch_to_client_account (sts : Client) (role_arn region : string)
  : M unit :=
  acct_cred <- assume_role sts role_arn "inv_master" ;;
  let ACCESS_KEY := AccessKeyId (RoleCredentials acct_cred) in
  let SECRET_KEY := SecretAccessKey (RoleCredentials acct_cred) in
  let SESSION_TOKEN := SessionToken (RoleCredentials acct_cred) in
  boto3_setup_default_session
    (AssumedSession region ACCESS_KEY SECRET_KEY SESSION_TOKEN).

(** Lines 103-109: the window of the day before [now]. *)
Definition computeWindow (now : PyDate.datetime) : result TimeRange :=
  (end_ <?- PyDate.datetime_ymd (PyDate.year now) (PyDate.month now)
                                (PyDate.day now) ;;
   start <?- PyDate.sub end_ (PyDate.timedelta_days 1) ;;
   let start := PyDate.strftime_ymd start in
   let end_ := PyDate.strftime_ymd end_ in
   Ok {| Start := start; End_ := end_ |})%result.

(** [__get_time_range], lines 100-109. *)
Definition get_time_range : M TimeRange :=
  now <- datetime_utcnow ;;
  lift (computeWindow now).

(** [AWSCostMetricCollector.__init__], lines 70-81, with the keyword
    arguments the start-up script passes. *)
Definition AWSCostMetricCollector_init
    (project role_arn region cost_type : string) (cost_filter : json)
  : M AWSCostMetricCollector :=
  sts <- boto3_client "sts" ;;
  switch_to_client_account sts role_arn region ;;
  ce <- boto3_client "ce" ;;
  time_range <- get_time_range ;;
  ret {| self_project := project; self_role_arn := role_arn;
         self_region := region; self_sts := sts; self_ce := ce;
         self_time_range := time_range; self_cost_type := cost_type;
         self_cost_filter := cost_filter |}.

(** The query of lines 112-118. *)
Definition cost_request (self : AWSCostMetricCollector) : Request.t :=
  {| Request.TimePeriod := self_time_range self;
     Request.Granularity := "DAILY";
     Request.Metrics := [self_cost_type self];
     Request.Filter := self_cost_filter self;
     Request.GroupBy := [{| Type_ := "DIMENSION"; Key := "SERVICE" |}] |}.

(** [r["Metrics"]["AmortizedCost"]["Amount"]] *)
Definition amortized_amount (r : Group) : result string :=
  (m <?- PyDict.getitem (Metrics r) "AmortizedCost" ;;
   or_raise (KeyError "Amount") (Amount m))%result.

(** The body of the loop, lines 123-128. *)
Definition cost_step (cost_as_per_service : CostAsPerService) (r : Group)
  : result CostAsPerService :=
  (amount <?- amortized_amount r ;;
   f <?- PyFloat.of_string amount ;;
   cost <?- PyFloat.ceil f ;;
   key <?- list_getitem (Keys r) 0 ;;
   let service := normalize_service key in
   let costs := PyDict.set (Cost cost_as_per_service) service cost in
   amount' <?- amortized_amount r ;;
   f' <?- PyFloat.of_string amount' ;;
   Ok {| Cost := costs;
         Total := PyFloat.add (Total cost_as_per_service) f' |})%result.

(** Lines 120-128: the loop over the groups, from an empty cost map and a
    total of [0.0]. *)
Definition aggregate (groups : list Group) : result CostAsPerService :=
  for_each cost_step groups {| Cost := PyDict.empty; Total := PyFloat.zero |}.

(** [__get_aws_cost], lines 111-132. *)
Definition get_aws_cost (self : AWSCostMetricCollector) : M CostAsPerService :=
  resp <- get_cost_and_usage (self_ce self) (cost_request self) ;;
  first <- lift (list_getitem (ResultsByTime resp) 0) ;;
  cost_as_per_service <- lift (aggregate (Groups first)) ;;
  print (PCosts (self_time_range self) cost_as_per_service) ;;
  ret cost_as_per_service.

Definition individual_sample (project : string) (entry : string * Z) : Sample :=
  {| sample_name := "aws_cost";
     sample_labels := [("project", project); ("service", fst entry);
                       ("type", "individual_service")];
     value := IntValue (snd entry) |}.

Definition total_sample (project : string) (total : PyFloat.float) : Sample :=
  {| sample_name := "aws_cost";
     sample_labels := [("project", project); ("type", "daily_total")];
     value := FloatValue total |}.

(** [collect], lines 134-159.  The generator yields once, at its end:
    the result is the list of the metrics yielded, or the exception
    raised to whoever iterates, in which case nothing was yielded. *)
Definition collect (self : AWSCostMetricCollector) : M (list Metric) :=
  let metric :=
    Metric_new "aws_project_cost_as_per_service"
               "Service wise cost for an AWS account" "gauge" in
  costs <- get_aws_cost self ;;
  let metric :=
    fold_left
      (fun m entry =>
         let s := individual_sample (self_project self) entry in
         add_sample m (sample_name s) (value s) (sample_labels s))
      (PyDict.items (Cost costs)) metric in
  let metric :=
    let s := total_sample (self_project self) (Total costs) in
    add_sample metric (sample_name s) (value s) (sample_labels s) in
  ret [metric].

(* ===================================================================== *)
(** ** The registry *)
(* ===================================================================== *)

(** [REGISTRY.register(collector)].  The collector has no [describe]
    method, so the registry iterates [collect] to learn the names of its
    metrics (a gauge has its name and no other); what [collect] raises
    comes out of [register].  A name that is registered already is
    refused with [ValueError]; otherwise the names are added and the
    collector is registered. *)
Definition REGISTRY_register (collector : AWSCostMetricCollector) : M unit :=
  metrics <- collect collector ;;
  let names := map metric_name metrics in
  fun w =>
    if existsb (fun name => existsb (String.eqb name) (registry w)) names
    then (Raise ValueError, w)
    else emit (EvRegister collector)
              (with_registry w (registry w ++ names)).

(* ===================================================================== *)
(** ** The start-up script *)
(* ===================================================================== *)

(** The empty dictionary of line 173. *)
Definition no_config : Config :=
  {| cfg_scrape_interval := None; cfg_port := None;
     cfg_project := None; cfg_role_arn := None;
     cfg_region := None; cfg_cost_type := None;
     cfg_filter := None |}.

(** Lines 170-194, up to the idle loop of lines 195-196, which never
    ends.  [filepath] is there when the flag [-f] names a file: it is
    what opening, reading and parsing that file gives, a document or
    the exception raised on the way. *)
Definition main (filepath : option (result document)) : M unit :=
  loaded_config <-
    match filepath with
    | Some file => print (PText "Reading config file") ;; lift file
    | None => ret (Mapping no_config)
    end ;;
  config <- Constants_init loaded_config ;;
  log_config config ;;
  start_http_server (port (exporter_config config)) ;;
  print (PStarted (port (exporter_config config))) ;;
  metrics <- AWSCostMetricCollector_init
               (project (exporter_config config))
               (role_arn (exporter_config config))
               (region (exporter_config config))
               (cost_type (exporter_config config))
               (cost_filter (exporter_config config)) ;;
  REGISTRY_register metrics.

(* ===================================================================== *)
(** ** Vocabulary of the statements *)
(* ===================================================================== *)

Module PyFloatSpec.

(** [x - y] *)
Definition sub (x y : PyFloat.float) : PyFloat.float :=
  SFsub PyFloat.prec PyFloat.emax x y.

(** [c] is the least integer not below the finite float [x], whose value
    is [m * 2^e] with the sign [s]. *)
Definition is_ceil (x : PyFloat.float) (c : Z) : Prop :=
  match x with
  | S754_zero _ => c = 0
  | S754_finite s m e =>
      let z := if s then Zneg m else Zpos m in
      if 0 <=? e then c = z * 2 ^ e
      else (c - 1) * 2 ^ (- e) < z <= c * 2 ^ (- e)
  | _ => False
  end.

(** [x] is a normal double of sign [neg] within half a unit in its last
    place of the decimal [m / 10^k]: a double nearest to it. *)
Definition nearest_decimal (x : PyFloat.float) (neg : bool) (m k : Z) : bool :=
  match x with
  | S754_finite s mx ex =>
      Bool.eqb s neg && (Zpos (digits2_pos mx) =? PyFloat.prec) && (ex <? 0)
      && (Z.abs (2 * Zpos mx * 10 ^ k - 2 * m * 2 ^ (- ex)) <=? 10 ^ k)
  | _ => false
  end.

(** The amount of [c] cents in decimal notation, as in "-12.40". *)
Definition cents_text (c : Z) : string :=
  (if c <? 0 then "-" else "")
  ++ PyDate.decimal 20 (Z.abs c / 100) ++ "."
  ++ PyDate.zfill 2 (Z.abs c mod 100).

(** [float] reads the text of [c] cents as a double nearest to [c / 100]
    (as [0.0] when [c] is 0), and [math.ceil] returns the least integer
    not below [c / 100] on it. *)
Definition reads_cents (c : Z) : bool :=
  match PyFloat.of_string (cents_text c) with
  | Ok x =>
      (if c =? 0
       then match x with S754_zero false => true | _ => false end
       else nearest_decimal x (c <? 0) (Z.abs c) 2)
      && match PyFloat.ceil x with
         | Ok z => z =? - ((- c) / 100)
         | Raise _ => false
         end
  | Raise _ => false
  end.

End PyFloatSpec.

(** The [n] integers from [lo] on. *)
Fixpoint upto (n : nat) (lo : Z) : list Z :=
  match n with
  | O => []
  | S n' => lo :: upto n' (lo + 1)
  end.

(** The text of one character, by its code point. *)
Definition chr (n : Z) : string :=
  String (ascii_of_nat (Z.to_nat n)) EmptyString.

(** What the loop reads from one group: its service identifier, the text
    of its amount, the float the text denotes and the ceiling of it. *)
Record row : Type := {
  row_key : string;
  row_amount : string;
  row_float : PyFloat.float;
  row_ceil : Z }.

(** The group [r] carries the row [x]: its first key is the identifier
    and its [AmortizedCost] metric has the amount, a finite number. *)
Definition reads (r : Group) (x : row) : Prop :=
  (exists rest, Keys r = row_key x :: rest)
  /\ (exists m, PyDict.get (Metrics r) "AmortizedCost" = Some m
                /\ Amount m = Some (row_amount x))
  /\ PyFloat.of_string (row_amount x) = Ok (row_float x)
  /\ PyFloat.ceil (row_float x) = Ok (row_ceil x).

(** The effect of one row on the accumulator. *)
Definition apply_row (acc : CostAsPerService) (x : row) : CostAsPerService :=
  {| Cost := PyDict.set (Cost acc) (normalize_service (row_key x)) (row_ceil x);
     Total := PyFloat.add (Total acc) (row_float x) |}.

(** The query [collect] sends, as an event, and the answer the billing
    service of the world [w] gives to it. *)
Definition query_event (self : AWSCostMetricCollector) : event :=
  EvGetCostAndUsage (client_session (self_ce self)) (cost_request self).

Definition answer (self : AWSCostMetricCollector) (w : World)
  : result CostResponse :=
  ce_get_cost_and_usage w (client_session (self_ce self)) (cost_request self).

(** A group as the service returns it for one requested metric. *)
Definition api_group (metric key amount : string) : Group :=
  {| Keys := [key];
     Metrics := [(metric, {| Amount := Some amount; Unit := Some "USD" |})] |}.

(* ===================================================================== *)
(** ** Scenarios *)
(* ===================================================================== *)

Module Scenario.

Definition at_time (y m d h mi s : Z) : PyDate.datetime :=
  {| PyDate.year := y; PyDate.month := m; PyDate.day := d;
     PyDate.hour := h; PyDate.minute := mi; PyDate.second := s;
     PyDate.microsecond := 0 |}.

Definition acme_arn : string := "arn:aws:iam::123:role/x".

(** The configuration [{project: "acme", role_arn: ..., region:
    "eu-west-1"}] with a cost type and a filter. *)
Definition acme_config (cost_type : option string) : Config :=
  {| cfg_scrape_interval := None; cfg_port := None;
     cfg_project := Some "acme"; cfg_role_arn := Some acme_arn;
     cfg_region := Some "eu-west-1"; cfg_cost_type := cost_type;
     cfg_filter := Some "null" |}.

(** An identity service that grants every role. *)
Definition sts_grants (arn name : string) : result AssumeRoleResponse :=
  Ok {| RoleCredentials :=
          {| AccessKeyId := "ASIAEXAMPLE"; SecretAccessKey := "secret";
             SessionToken := "token" |} |}.

(** An identity service that denies every role. *)
Definition sts_denies (arn name : string) : result AssumeRoleResponse :=
  Raise (ClientError "AssumeRole" "AccessDenied").

Definition acme_session : Session :=
  AssumedSession "eu-west-1" "ASIAEXAMPLE" "secret" "token".

(** A billing service that answers with one day of two groups, each
    carrying the metrics the query asked for. *)
Definition ce_answers (s : Session) (req : Request.t) : result CostResponse :=
  let amounts (a : string) :=
    map (fun m => (m, {| Amount := Some a; Unit := Some "USD" |}))
        (Request.Metrics req) in
  Ok {| ResultsByTime :=
          [{| Groups :=
                [{| Keys := ["Amazon Elastic Compute Cloud"];
                    Metrics := amounts "12.40" |};
                 {| Keys := ["Amazon Simple Storage Service"];
                    Metrics := amounts "3.10" |}] |}] |}.

(** A billing service that cannot be reached. *)
Definition ce_unreachable (s : Session) (req : Request.t)
  : result CostResponse :=
  Raise (ClientError "GetCostAndUsage" "EndpointConnectionError").

(** A billing service that answers with one day without groups. *)
Definition ce_empty (s : Session) (req : Request.t) : result CostResponse :=
  Ok {| ResultsByTime := [{| Groups := [] |}] |}.

(** A JSON reader that knows the text [null]. *)
Definition loads_null (text : string) : result json :=
  if String.eqb text "null" then Ok JNull else Raise JSONDecodeError.

(** A system on which the ports from 1024 on are free and the others
    are not the process's to take. *)
Definition listens (p : Z) : result unit :=
  if 1024 <=? p then Ok tt else Raise (OSError "Permission denied").

(** A process in which nothing has happened yet and the registry holds
    no name of the exporter. *)
Definition world (now : PyDate.datetime)
    (sts : string -> string -> result AssumeRoleResponse)
    (ce : Session -> Request.t -> result CostResponse)
    (session : option Session) : World :=
  {| clock := now; sts_assume_role := sts; ce_get_cost_and_usage := ce;
     json_loads := loads_null; http_listen := listens;
     default_session := session; registry := []; events := [] |}.

(** The collector the start-up script builds from [acme_config] on
    2024-03-01. *)
Definition acme_collector (cost_type : string) : AWSCostMetricCollector :=
  {| self_project := "acme"; self_role_arn := acme_arn;
     self_region := "eu-west-1";
     self_sts := {| client_service := "sts";
                    client_session := AmbientSession |};
     self_ce := {| client_service := "ce"; client_session := acme_session |};
     self_time_range := {| Start := "2024-02-29"; End_ := "2024-03-01" |};
     self_cost_type := cost_type;
     self_cost_filter := JNull |}.

(** Worlds of a scrape, after start-up: the clock reads 2024-03-01
    10:00 and boto3's default session is the assumed one. *)
Definition scrape_world (ce : Session -> Request.t -> result CostResponse)
  : World :=
  world (at_time 2024 3 1 10 0 0) sts_grants ce (Some acme_session).

End Scenario.

Module PyDateSpec.
Import PyDate.

(** [month_day] names a day of the year: the month is one of the twelve,
    the day is one of the month, and the days before it are [n]. *)
Definition month_day_ok (leapyear : bool) (n : Z) : bool :=
  let '(m, d) := month_day leapyear n in
  (1 <=? m) && (m <=? 12) && (1 <=? d)
  && (d <=? (if (m =? 2) && leapyear then 29 else table DAYS_IN_MONTH m))
  && (table DAYS_BEFORE_MONTH m
      + (if (2 <? m) && leapyear then 1 else 0) + d =? n + 1).

(** The date a text in the form YYYY-MM-DD denotes. *)
Definition parse_ymd (s : string) : option (Z * Z * Z) :=
  match s with
  | String y3 (String y2 (String y1 (String y0 (String sep1
      (String m1 (String m0 (String sep2
        (String d1 (String d0 EmptyString))))))))) =>
      match PyFloat.digit_of y3, PyFloat.digit_of y2, PyFloat.digit_of y1,
            PyFloat.digit_of y0, PyFloat.digit_of m1, PyFloat.digit_of m0,
            PyFloat.digit_of d1, PyFloat.digit_of d0 with
      | Some a3, Some a2, Some a1, Some a0, Some b1, Some b0,
        Some c1, Some c0 =>
          if Ascii.eqb sep1 "-" && Ascii.eqb sep2 "-"
          then Some (1000 * a3 + 100 * a2 + 10 * a1 + a0,
                     10 * b1 + b0, 10 * c1 + c0)
          else None
      | _, _, _, _, _, _, _, _ => None
      end
  | _ => None
  end.

End PyDateSpec.

(* ===================================================================== *)
(** ** Vocabulary of the further properties *)
(* ===================================================================== *)

Module Trace.

Definition is_server_start (ev : event) : bool :=
  match ev with EvStartHttpServer _ => true | _ => false end.

Definition is_assume_role (ev : event) : bool :=
  match ev with EvAssumeRole _ _ => true | _ => false end.

Definition is_setup_session (ev : event) : bool :=
  match ev with EvSetupDefaultSession _ => true | _ => false end.

Definition is_client (ev : event) : bool :=
  match ev with EvClient _ => true | _ => false end.

Definition is_register (ev : event) : bool :=
  match ev with EvRegister _ => true | _ => false end.

Definition is_query (ev : event) : bool :=
  match ev with EvGetCostAndUsage _ _ => true | _ => false end.

(** How many events of a kind a trace holds. *)
Definition count (kind : event -> bool) (l : list event) : nat :=
  List.length (filter kind l).

End Trace.

Module JsonText.

(** Whether a closing brace or bracket follows a comma, with nothing but
    JSON white space between them, outside the string literals of the
    text.  [in_string] and [escaped] follow the literals; [after_comma]
    holds while the last token read is a comma. *)
Fixpoint scan (in_string escaped after_comma : bool) (s : string) : bool :=
  match s with
  | EmptyString => false
  | String c r =>
      if in_string then
        if escaped then scan true false false r
        else if Ascii.eqb c "\" then scan true true false r
        else if Ascii.eqb c (ascii_of_nat 34) then scan false false false r
        else scan true false false r
      else if Ascii.eqb c (ascii_of_nat 34) then scan true false false r
      else if Ascii.eqb c "," then scan false false true r
      else if Ascii.eqb c "}" || Ascii.eqb c "]" then
        after_comma || scan false false false r
      else if Ascii.eqb c " " || Ascii.eqb c (ascii_of_nat 9)
              || Ascii.eqb c (ascii_of_nat 10) || Ascii.eqb c (ascii_of_nat 13)
      then scan false false after_comma r
      else scan false false false r
  end.

Definition comma_before_close (text : string) : bool :=
  scan false false false text.

(** A reader of JSON texts is strict when it refuses every text with a
    comma before a closing brace or bracket, as [json.loads] does: the
    grammar has a member or a value after a comma. *)
Definition strict (loads : string -> result json) : Prop :=
  forall text, comma_before_close text = true ->
               exists e, loads text = Raise e.

End JsonText.

(** The keys of a list in the order of their first occurrence. *)
Definition first_occurrences (l : list string) : list string :=
  fold_left
    (fun seen k => if existsb (String.eqb k) seen then seen else seen ++ [k])%list
    l [].

(** A non-empty run of whitespace. *)
Fixpoint all_space (s : string) : bool :=
  match s with
  | EmptyString => true
  | String c r => PyStr.isspace c && all_space r
  end.

Definition is_space_run (s : string) : bool :=
  negb (PyStr.is_empty s) && all_space s.

(** What the loop makes of the answer of the billing service: the costs
    of the groups of the first time period. *)
Definition aggregate_answer (self : AWSCostMetricCollector) (w : World)
  : result CostAsPerService :=
  rbind (answer self w) (fun resp =>
  rbind (list_getitem (ResultsByTime resp) 0) (fun first =>
  aggregate (Groups first))).

(** Answers of the billing service for the further properties. *)
Module Cases.

Definition ce_returns (resp : CostResponse) (s : Session) (req : Request.t)
  : result CostResponse := Ok resp.

Definition one_day (groups : list Group) : CostResponse :=
  {| ResultsByTime := [{| Groups := groups |}] |}.

(** Three groups, the second with an amount that is not a number. *)
Definition with_bad_amount : list Group :=
  [api_group "AmortizedCost" "Amazon S3" "3.10";
   api_group "AmortizedCost" "Tax" "n/a";
   api_group "AmortizedCost" "AWS Lambda" "1"].

(** Three groups, the first and the last of one service. *)
Definition with_repeated_service : list Group :=
  [api_group "AmortizedCost" "Amazon  Route 53" "1.5";
   api_group "AmortizedCost" "Tax" "2";
   api_group "AmortizedCost" "Amazon Route 53" "-7.5"].

End Cases.

(* ===================================================================== *)
(** * Properties *)
(* ===================================================================== *)

(* --------------------------------------------------------------------- *)
(** *** Facts on [split] and [join] *)

Section SplitJoin.
Import PyStr.

Lemma append_empty_r (s : string) : s ++ "" = s.
Proof. induction s as [|c s IH]; simpl; [reflexivity | now rewrite IH]. Qed.

Lemma append_assoc (a b c : string) : (a ++ b) ++ c = a ++ (b ++ c).
Proof. induction a as [|x a IH]; simpl; [reflexivity | now rewrite IH]. Qed.

Lemma is_empty_append (a b : string) :
  is_empty (a ++ b) = is_empty a && is_empty b.
Proof. destruct a; reflexivity. Qed.

Lemma has_space_append (a b : string) :
  has_space (a ++ b) = has_space a || has_space b.
Proof.
  induction a as [|x a IH]; simpl; [reflexivity|].
  now rewrite IH, orb_assoc.
Qed.

(** Without whitespace the reader never closes a word. *)
Lemma split_from_no_space (s w : string) :
  has_space s = false ->
  split_from w s = if is_empty (w ++ s) then [] else [w ++ s].
Proof.
  revert w; induction s as [|c s IH]; intros w H; simpl in *.
  - now rewrite append_empty_r.
  - apply orb_false_iff in H as [Hc Hs]. rewrite Hc.
    rewrite (IH _ Hs), append_assoc. reflexivity.
Qed.

(** Every word [split] returns is non-empty and free of whitespace. *)
Lemma split_from_words (s w : string) :
  has_space w = false ->
  Forall (fun x => has_space x = false /\ is_empty x = false)
         (split_from w s).
Proof.
  revert w; induction s as [|c s IH]; intros w Hw; simpl.
  - destruct (is_empty w) eqn:E; constructor; auto.
  - destruct (isspace c) eqn:Hc.
    + destruct (is_empty w) eqn:E.
      * now apply IH.
      * constructor; [auto | now apply IH].
    + apply IH. rewrite has_space_append, Hw. simpl. now rewrite Hc.
Qed.

Lemma join_no_space (sep : string) (l : list string) :
  has_space sep = false ->
  Forall (fun x => has_space x = false /\ is_empty x = false) l ->
  has_space (join sep l) = false.
Proof.
  intros Hsep H; induction H as [|x l [Hx _] Hl IH]; [reflexivity|].
  unfold join in *; simpl. destruct l as [|y l]; [exact Hx|].
  now rewrite !has_space_append, Hx, Hsep, IH.
Qed.

Lemma normalize_no_space (s : string) :
  has_space (normalize_service s) = false.
Proof.
  unfold normalize_service.
  apply join_no_space; [reflexivity | now apply split_from_words].
Qed.

Lemma normalize_fixed (s : string) :
  has_space s = false -> normalize_service s = s.
Proof.
  intros H. unfold normalize_service, split.
  rewrite (split_from_no_space _ _ H). simpl.
  destruct s; reflexivity.
Qed.

End SplitJoin.

(* --------------------------------------------------------------------- *)
(** *** Service name normalization *)

(** C8. Normalizing a service name is idempotent; a name without
    whitespace is returned unchanged; and "Elastic Compute Cloud" becomes
    "Elastic_Compute_Cloud". *)
Theorem C8_normalize_idempotent (name : string) :
  normalize_service (normalize_service name) = normalize_service name
  /\ (PyStr.has_space name = false -> normalize_service name = name)
  /\ normalize_service "Elastic Compute Cloud" = "Elastic_Compute_Cloud".
Proof.
  split; [|split].
  - apply normalize_fixed, normalize_no_space.
  - apply normalize_fixed.
  - reflexivity.
Qed.

Lemma C8_normalize_idempotent_witness :
  PyStr.has_space "AmazonCloudWatch" = false
  /\ normalize_service "AmazonCloudWatch" = "AmazonCloudWatch".
Proof.
  split; [reflexivity|].
  apply (proj1 (proj2 (C8_normalize_idempotent "AmazonCloudWatch"))).
  reflexivity.
Defined.

(* --------------------------------------------------------------------- *)
(** *** Dictionaries *)

Section DictFacts.
Import PyDict.
Context {V : Type}.
Implicit Types (d : dict V) (k : string) (v : V).

Lemma get_set_same d k v : get (set d k v) k = Some v.
Proof.
  induction d as [|[k' v'] d IH]; simpl.
  - now rewrite String.eqb_refl.
  - destruct (String.eqb k' k) eqn:E; simpl; rewrite E; auto.
Qed.

Lemma get_set_other d k k' v : k <> k' -> get (set d k v) k' = get d k'.
Proof.
  intros Hne. induction d as [|[k0 v0] d IH]; simpl.
  - destruct (String.eqb k k') eqn:E; [|reflexivity].
    apply String.eqb_eq in E. contradiction.
  - destruct (String.eqb k0 k) eqn:E; simpl.
    + apply String.eqb_eq in E. subst k0.
      destruct (String.eqb k k') eqn:E'; [|reflexivity].
      apply String.eqb_eq in E'. contradiction.
    + now rewrite IH.
Qed.

Lemma in_keys_set d k k' v :
  In k' (keys (set d k v)) <-> k' = k \/ In k' (keys d).
Proof.
  unfold keys. induction d as [|[k0 v0] d IH]; simpl.
  - intuition.
  - destruct (String.eqb k0 k) eqn:E; simpl.
    + apply String.eqb_eq in E. subst k0. intuition.
    + rewrite IH. intuition.
Qed.

(** Assignment never duplicates a key. *)
Lemma NoDup_keys_set d k v : NoDup (keys d) -> NoDup (keys (set d k v)).
Proof.
  unfold keys. induction d as [|[k0 v0] d IH]; simpl; intros H.
  - constructor; [intros [] | constructor].
  - inversion H as [|? ? Hnin Hd]; subst.
    destruct (String.eqb k0 k) eqn:E; simpl.
    + now constructor.
    + constructor; [|now apply IH].
      intros Hin. apply (in_keys_set d k k0 v) in Hin as [->|Hin].
      * now rewrite String.eqb_refl in E.
      * contradiction.
Qed.

Lemma get_None_not_in d k : get d k = None <-> ~ In k (keys d).
Proof.
  unfold keys. induction d as [|[k0 v0] d IH]; simpl.
  - intuition.
  - destruct (String.eqb k0 k) eqn:E.
    + apply String.eqb_eq in E. subst. intuition discriminate.
    + apply String.eqb_neq in E. rewrite IH. intuition.
Qed.

(** A key that is absent is appended; the entries before it stay. *)
Lemma set_fresh d k v : get d k = None -> set d k v = (d ++ [(k, v)])%list.
Proof.
  induction d as [|[k0 v0] d IH]; simpl; [reflexivity|].
  destruct (String.eqb k0 k) eqn:E; [discriminate|].
  intros H. now rewrite IH.
Qed.

Lemma length_set d k v :
  List.length (set d k v)
  = match get d k with
    | Some _ => List.length d
    | None => S (List.length d)
    end.
Proof.
  induction d as [|[k0 v0] d IH]; simpl; [reflexivity|].
  destruct (String.eqb k0 k) eqn:E; simpl; [reflexivity|].
  rewrite IH. now destruct (get d k).
Qed.

End DictFacts.

(* --------------------------------------------------------------------- *)
(** *** Floats *)

Section FloatFacts.
Import PyFloat PyFloatSpec.

(** [math.ceil] returns the ceiling. *)
Lemma ceil_is_ceil (x : float) (c : Z) : ceil x = Ok c -> is_ceil x c.
Proof.
  destruct x as [s|s| |s m e]; simpl; try discriminate.
  - now intros [= <-].
  - intros [= <-]. destruct (0 <=? e) eqn:E; [reflexivity|].
    apply Z.leb_gt in E.
    set (z := if s then Zneg m else Zpos m).
    assert (Hd : 0 < 2 ^ (- e)) by (apply Z.pow_pos_nonneg; lia).
    pose proof (Z.div_mod (- z) (2 ^ (- e)) ltac:(lia)) as Hdm.
    pose proof (Z.mod_pos_bound (- z) (2 ^ (- e)) Hd) as Hb.
    nia.
Qed.

(** Every finite float has a ceiling: [math.ceil] returns on it. *)
Lemma ceil_total (x : float) :
  match x with
  | S754_zero _ | S754_finite _ _ _ => exists c, ceil x = Ok c
  | _ => True
  end.
Proof. destruct x; simpl; eauto. Qed.

(** The amounts of the examples parse to the doubles nearest to them. *)
Example of_string_nearest :
  Forall (fun '(text, neg, m, k) =>
            exists x, of_string text = Ok x
                      /\ nearest_decimal x neg m k = true)
         [("12.40", false, 1240, 2); ("3.10", false, 310, 2);
          ("-0.3", true, 3, 1); ("-0.4", true, 4, 1);
          ("0.3", false, 3, 1); ("15.5", false, 155, 1);
          ("0.1", false, 1, 1); ("1234.5678", false, 12345678, 4)].
Proof. repeat constructor; eexists; split; vm_compute; reflexivity. Qed.

(** The texts [float] accepts and refuses. *)
Example of_string_forms :
  map of_string ["1e2"; " 2.5 "; "+.5"; "7."; "1_000"; "-INF"; "nan";
                 "1e400"; "-0.0"]
  = [Ok (S754_finite false (25 * 2 ^ 48) (-46));
     Ok (S754_finite false (5 * 2 ^ 50) (-51));
     Ok (S754_finite false (2 ^ 52) (-53));
     Ok (S754_finite false (7 * 2 ^ 50) (-50));
     Ok (S754_finite false (125 * 2 ^ 46) (-43));
     Ok (S754_infinity true); Ok S754_nan; Ok (S754_infinity false);
     Ok (S754_zero true)]
  /\ map of_string [""; "."; "1_"; "1__0"; "1e"; "12.4.0"; "USD"; "1 2"]
     = [Raise ValueError; Raise ValueError; Raise ValueError;
        Raise ValueError; Raise ValueError; Raise ValueError;
        Raise ValueError; Raise ValueError].
Proof. split; vm_compute; reflexivity. Qed.

Lemma in_upto (n : nat) (lo c : Z) :
  lo <= c < lo + Z.of_nat n -> In c (upto n lo).
Proof.
  revert lo; induction n as [|n IH]; intros lo H; [lia|].
  cbn [upto]. destruct (Z.eq_dec lo c) as [->|Hne]; [now left|].
  right. apply IH. lia.
Qed.

(** Every amount of whole cents from -100.00 to 100.00 is read as a
    double nearest to it, with the ceiling of the amount. *)
Lemma cents_checked :
  forallb reads_cents (upto (Z.to_nat 20001) (-10000)) = true.
Proof. vm_compute. reflexivity. Qed.

Lemma reads_cents_spec (c : Z) :
  reads_cents c = true ->
  exists x,
    of_string (cents_text c) = Ok x
    /\ (c = 0 -> x = zero)
    /\ (c <> 0 -> nearest_decimal x (c <? 0) (Z.abs c) 2 = true)
    /\ ceil x = Ok (- ((- c) / 100)).
Proof.
  unfold reads_cents.
  destruct (of_string (cents_text c)) as [x|e]; [|discriminate].
  intros H. apply andb_true_iff in H as [Hx Hc]. exists x.
  split; [reflexivity|].
  destruct (Z.eqb_spec c 0) as [E|E].
  - split; [|split; [contradiction|]].
    + intros _. destruct x as [[]| | |]; try discriminate. reflexivity.
    + destruct (ceil x) as [z|]; [|discriminate].
      apply Z.eqb_eq in Hc. now subst.
  - split; [contradiction|]. split; [intros _; exact Hx|].
    destruct (ceil x) as [z|]; [|discriminate].
    apply Z.eqb_eq in Hc. now subst.
Qed.

(** Adding the opposite is subtracting. *)
Lemma add_opp (x y : float) : add x (SFopp y) = sub x y.
Proof.
  unfold add, sub.
  destruct x as [sx|sx| |sx mx ex], y as [sy|sy| |sy my ey]; simpl;
    try reflexivity; destruct sx, sy; reflexivity.
Qed.

End FloatFacts.

(* --------------------------------------------------------------------- *)
(** *** The aggregation loop *)

Section Aggregation.

Lemma for_each_app {A S : Type} (body : S -> A -> result S)
    (l1 l2 : list A) (s : S) :
  for_each body (l1 ++ l2) s = rbind (for_each body l1 s) (for_each body l2).
Proof.
  revert s; induction l1 as [|a l1 IH]; intros s; simpl; [reflexivity|].
  destruct (body s a); simpl; auto.
Qed.

(** One well-formed group changes the accumulator as its row says. *)
Lemma cost_step_reads (acc : CostAsPerService) (r : Group) (x : row) :
  reads r x -> cost_step acc r = Ok (apply_row acc x).
Proof.
  intros [[rest Hk] [[m [Hm Ha]] [Hf Hc]]].
  unfold cost_step, amortized_amount, PyDict.getitem, list_getitem.
  rewrite Hm; simpl. rewrite Ha; simpl. rewrite Hf; simpl.
  rewrite Hc; simpl. rewrite Hk; simpl. reflexivity.
Qed.

(** A group that carries another metric than "AmortizedCost" stops the
    loop. *)
Lemma cost_step_other_metric (acc : CostAsPerService)
    (metric key amount : string) :
  metric <> "AmortizedCost" ->
  cost_step acc (api_group metric key amount)
  = Raise (KeyError "AmortizedCost").
Proof.
  intros Hne. unfold cost_step, amortized_amount, PyDict.getitem. simpl.
  apply String.eqb_neq in Hne. now rewrite Hne.
Qed.

Lemma for_each_reads (groups : list Group) (rows : list row) :
  Forall2 reads groups rows ->
  forall acc, for_each cost_step groups acc = Ok (fold_left apply_row rows acc).
Proof.
  induction 1 as [|r x groups rows Hr _ IH]; intros acc; simpl.
  - reflexivity.
  - rewrite (cost_step_reads _ _ _ Hr). simpl. apply IH.
Qed.

Lemma Total_fold (rows : list row) (acc : CostAsPerService) :
  Total (fold_left apply_row rows acc)
  = fold_left PyFloat.add (map row_float rows) (Total acc).
Proof.
  revert acc; induction rows as [|x rows IH]; intros acc; simpl.
  - reflexivity.
  - now rewrite IH.
Qed.

(** Rows with another key leave an entry alone. *)
Lemma Cost_fold_other (rows : list row) (acc : CostAsPerService) (k : string) :
  Forall (fun y => normalize_service (row_key y) <> k) rows ->
  PyDict.get (Cost (fold_left apply_row rows acc)) k = PyDict.get (Cost acc) k.
Proof.
  intros H; revert acc; induction H as [|y rows Hy _ IH]; intros acc; simpl.
  - reflexivity.
  - rewrite IH. simpl. now apply get_set_other.
Qed.

(** The last row of a key decides the entry of that key. *)
Lemma Cost_fold_last (pre post : list row) (x : row) (acc : CostAsPerService) :
  Forall (fun y => normalize_service (row_key y)
                   <> normalize_service (row_key x)) post ->
  PyDict.get (Cost (fold_left apply_row (pre ++ x :: post) acc))
             (normalize_service (row_key x))
  = Some (row_ceil x).
Proof.
  intros H. rewrite fold_left_app. simpl.
  rewrite (Cost_fold_other _ _ _ H). simpl. apply get_set_same.
Qed.

Lemma Cost_fold_keys (rows : list row) (acc : CostAsPerService) (k : string) :
  In k (PyDict.keys (Cost (fold_left apply_row rows acc)))
  <-> In k (PyDict.keys (Cost acc))
      \/ exists x, In x rows /\ normalize_service (row_key x) = k.
Proof.
  revert acc; induction rows as [|y rows IH]; intros acc; simpl.
  - split; [auto | intros [H|[x [[] _]]]; exact H].
  - rewrite IH. simpl. rewrite in_keys_set. split.
    + intros [[->|H]|[x [Hx Hk]]]; eauto.
    + intros [H|[x [[->|Hx] Hk]]]; eauto.
Qed.

Lemma Cost_fold_NoDup (rows : list row) (acc : CostAsPerService) :
  NoDup (PyDict.keys (Cost acc)) ->
  NoDup (PyDict.keys (Cost (fold_left apply_row rows acc))).
Proof.
  revert acc; induction rows as [|y rows IH]; intros acc H; simpl.
  - exact H.
  - apply IH. simpl. now apply NoDup_keys_set.
Qed.

(** On well-formed groups the loop returns, with the rows applied in
    order to the empty accumulator. *)
Lemma aggregate_reads (groups : list Group) (rows : list row) :
  Forall2 reads groups rows ->
  aggregate groups
  = Ok (fold_left apply_row rows
          {| Cost := PyDict.empty; Total := PyFloat.zero |}).
Proof. intros H. unfold aggregate. now apply for_each_reads. Qed.

End Aggregation.

(** The rows of the groups [{EC2, "12.40"}, {S3, "3.10"}] and of the
    group [{Support, "-0.3"}]. *)
Lemma reads_api_group (key amount : string) (f : PyFloat.float) (c : Z) :
  PyFloat.of_string amount = Ok f ->
  PyFloat.ceil f = Ok c ->
  reads (api_group "AmortizedCost" key amount)
        {| row_key := key; row_amount := amount;
           row_float := f; row_ceil := c |}.
Proof.
  intros Hf Hc. split; [|split; [|split]]; simpl.
  - now exists [].
  - eexists. split; reflexivity.
  - exact Hf.
  - exact Hc.
Qed.

(** C4. On every list of groups the loop sets the entry of each service
    to the ceiling of its parsed amount (the least integer not below it;
    with several groups of one service, that of the last one) and the
    total to the sum of the amounts as parsed, not rounded.  The groups
    [{EC2, "12.40"}, {S3, "3.10"}] give [{EC2: 13, S3: 4}] and the total
    15.5; a group [{Support, "-0.3"}] gives the entry 0 and takes 0.3
    from the total; and -0.4 has the ceiling 0 as well.  What "parsed"
    is: every amount of whole cents from -100.00 to 100.00 is read as a
    double nearest to it, and its entry is the ceiling of the amount
    itself; blanks at the ends of the text, an exponent, a sign and
    underscores between digits are read as [float] reads them; a text
    that is no number, such as one with a decimal comma, a unit or a
    separator character (FS..US) at an end, is refused. *)
Theorem C4_aggregation (groups : list Group) (rows : list row)
    (H : Forall2 reads groups rows) :
  exists acc,
    aggregate groups = Ok acc
    /\ Total acc = fold_left PyFloat.add (map row_float rows) PyFloat.zero
    /\ (forall pre x post,
          rows = (pre ++ x :: post)%list ->
          Forall (fun y => normalize_service (row_key y)
                           <> normalize_service (row_key x)) post ->
          PyDict.get (Cost acc) (normalize_service (row_key x))
          = Some (row_ceil x)
          /\ PyFloatSpec.is_ceil (row_float x) (row_ceil x))
    /\ (forall k,
          In k (PyDict.keys (Cost acc))
          <-> exists x, In x rows /\ normalize_service (row_key x) = k)
    /\ aggregate [api_group "AmortizedCost" "EC2" "12.40";
                  api_group "AmortizedCost" "S3" "3.10"]
       = Ok {| Cost := [("EC2", 13); ("S3", 4)];
               Total := S754_finite false (31 * 2 ^ 48) (-49) |}
    /\ PyFloat.of_string "15.5" = Ok (S754_finite false (31 * 2 ^ 48) (-49))
    /\ (exists acc' f03,
          aggregate (groups ++ [api_group "AmortizedCost" "Support" "-0.3"])
          = Ok acc'
          /\ PyDict.get (Cost acc') "Support" = Some 0
          /\ PyFloat.of_string "0.3" = Ok f03
          /\ Total acc' = PyFloatSpec.sub (Total acc) f03)
    /\ rbind (PyFloat.of_string "-0.4") PyFloat.ceil = Ok 0
    /\ (forall c,
          -10000 <= c <= 10000 ->
          exists x,
            PyFloat.of_string (PyFloatSpec.cents_text c) = Ok x
            /\ (c = 0 -> x = PyFloat.zero)
            /\ (c <> 0 ->
                PyFloatSpec.nearest_decimal x (c <? 0) (Z.abs c) 2 = true)
            /\ PyFloat.ceil x = Ok (- ((- c) / 100)))
    /\ map PyFloat.of_string
         [" 12.40"; "12.40" ++ chr 10; chr 9 ++ "12.40 "; chr 160 ++ "12.40";
          "1.24e1"; "124E-1"; "0.124e+2"; "1_2.4"; "+12.4"]
       = repeat (PyFloat.of_string "12.40") 9
    /\ map PyFloat.of_string
         ["12.40"; "12."; ".5"; "0E-10"; "1.035E-7"; "4.2474054403";
          "-0.0000001"; "1e400"; "-inf"; "NaN"]
       = [Ok (S754_finite false 6980579422424269 (-49));
          Ok (S754_finite false 6755399441055744 (-49));
          Ok (S754_finite false 4503599627370496 (-53));
          Ok (S754_zero false);
          Ok (S754_finite false 7820238895632132 (-76));
          Ok (S754_finite false 4782153389556624 (-50));
          Ok (S754_finite true 7555786372591432 (-76));
          Ok (S754_infinity false); Ok (S754_infinity true); Ok S754_nan]
    /\ map PyFloat.of_string
         [chr 28 ++ "12.40"; "12.40" ++ chr 31; "12,40"; "12.40 USD";
          "$12.40"; ""; " "; "1e"; "--1"; "1__0"; "0x1F"; "1 2"]
       = repeat (Raise ValueError) 12.
Proof.
  set (init := {| Cost := PyDict.empty; Total := PyFloat.zero |}).
  exists (fold_left apply_row rows init).
  split; [now apply aggregate_reads|].
  split; [apply Total_fold|].
  split.
  { intros pre x post -> Hpost. split.
    - now apply Cost_fold_last.
    - apply ceil_is_ceil.
      apply Forall2_app_inv_r in H as (g1 & g2 & _ & Hx & _).
      inversion Hx as [|r ? ? ? Hr _]; subst.
      apply Hr. }
  split.
  { intros k. rewrite Cost_fold_keys. simpl. intuition. }
  split; [reflexivity|].
  split; [reflexivity|].
  split;
    [|split; [reflexivity|]; split;
      [|repeat split; vm_compute; reflexivity]].
  2:{ intros c Hc. apply reads_cents_spec.
      apply (proj1 (forallb_forall _ _) cents_checked).
      apply in_upto. rewrite Z2Nat.id; lia. }
  set (f03 := S754_finite false 5404319552844595 (-54)).
  set (support := {| row_key := "Support"; row_amount := "-0.3";
                     row_float := SFopp f03; row_ceil := 0 |}).
  assert (Hs : reads (api_group "AmortizedCost" "Support" "-0.3") support)
    by (apply reads_api_group; reflexivity).
  exists (fold_left apply_row (rows ++ [support]) init), f03.
  split.
  { apply aggregate_reads, Forall2_app; [exact H|].
    constructor; [exact Hs | constructor]. }
  split.
  { apply (Cost_fold_last rows [] support). constructor. }
  split; [reflexivity|].
  rewrite fold_left_app. simpl. apply (add_opp _ f03).
Qed.

Lemma C4_aggregation_witness :
  exists acc,
    aggregate [api_group "AmortizedCost" "Amazon Simple Storage Service" "0.25";
               api_group "AmortizedCost" "AWS Lambda" "-1.75"]
    = Ok acc
    /\ PyDict.get (Cost acc) "AWS_Lambda" = Some (-1).
Proof.
  destruct (C4_aggregation
              [api_group "AmortizedCost" "Amazon Simple Storage Service" "0.25";
               api_group "AmortizedCost" "AWS Lambda" "-1.75"]
              [{| row_key := "Amazon Simple Storage Service";
                  row_amount := "0.25";
                  row_float := S754_finite false (2 ^ 52) (-54);
                  row_ceil := 1 |};
               {| row_key := "AWS Lambda"; row_amount := "-1.75";
                  row_float := S754_finite true (7 * 2 ^ 50) (-52);
                  row_ceil := -1 |}])
    as (acc & Hacc & _ & Hlast & _).
  - repeat constructor; simpl; try reflexivity.
    + now exists [].
    + eexists; split; reflexivity.
    + now exists [].
    + eexists; split; reflexivity.
  - exists acc. split; [exact Hacc|].
    destruct (Hlast [_] _ [] eq_refl (Forall_nil _)) as [Hget _].
    exact Hget.
Defined.

(** C9. When two groups with distinct service identifiers have the same
    normalized key, the cost map has one entry for that key, the ceiling
    of the amount of the last such group, and the total is the sum of
    the amounts of all groups, the overwritten ones too. *)
Theorem C9_duplicate_keys (groups : list Group) (pre mid post : list row)
    (x y : row)
    (H : Forall2 reads groups (pre ++ x :: mid ++ y :: post))
    (Hdistinct : row_key x <> row_key y)
    (Hsame : normalize_service (row_key x) = normalize_service (row_key y))
    (Hlast : Forall (fun z => normalize_service (row_key z)
                              <> normalize_service (row_key y)) post) :
  exists acc,
    aggregate groups = Ok acc
    /\ PyDict.get (Cost acc) (normalize_service (row_key y))
       = Some (row_ceil y)
    /\ NoDup (PyDict.keys (Cost acc))
    /\ Total acc
       = fold_left PyFloat.add
           (map row_float pre ++ row_float x
              :: map row_float mid ++ row_float y :: map row_float post)
           PyFloat.zero.
Proof.
  set (init := {| Cost := PyDict.empty; Total := PyFloat.zero |}).
  exists (fold_left apply_row (pre ++ x :: mid ++ y :: post) init).
  split; [now apply aggregate_reads|].
  split.
  { replace (pre ++ x :: mid ++ y :: post)%list
      with ((pre ++ x :: mid) ++ y :: post)%list
      by (rewrite <- app_assoc; reflexivity).
    now apply Cost_fold_last. }
  split; [apply Cost_fold_NoDup; constructor|].
  rewrite Total_fold. simpl.
  now rewrite map_app; simpl; rewrite map_app.
Qed.

Lemma C9_duplicate_keys_witness :
  exists acc,
    aggregate [api_group "AmortizedCost" "Amazon  Route 53" "1.5";
               api_group "AmortizedCost" "Tax" "2";
               api_group "AmortizedCost" "Amazon Route 53" "-7.5"]
    = Ok acc
    /\ PyDict.get (Cost acc) "Amazon_Route_53" = Some (-7)
    /\ Total acc = S754_finite true (2 ^ 52) (-50).
Proof.
  destruct (C9_duplicate_keys
              [api_group "AmortizedCost" "Amazon  Route 53" "1.5";
               api_group "AmortizedCost" "Tax" "2";
               api_group "AmortizedCost" "Amazon Route 53" "-7.5"]
              []
              [{| row_key := "Tax"; row_amount := "2";
                  row_float := S754_finite false (2 ^ 52) (-51);
                  row_ceil := 2 |}]
              []
              {| row_key := "Amazon  Route 53"; row_amount := "1.5";
                 row_float := S754_finite false (3 * 2 ^ 51) (-52);
                 row_ceil := 2 |}
              {| row_key := "Amazon Route 53"; row_amount := "-7.5";
                 row_float := S754_finite true (15 * 2 ^ 49) (-50);
                 row_ceil := -7 |})
    as (acc & Hacc & Hget & _ & Htot).
  - repeat constructor; simpl; try reflexivity.
    + now exists [].
    + eexists; split; reflexivity.
    + now exists [].
    + eexists; split; reflexivity.
    + now exists [].
    + eexists; split; reflexivity.
  - simpl. discriminate.
  - reflexivity.
  - constructor.
  - exists acc. split; [exact Hacc|]. split; [exact Hget|].
    rewrite Htot. reflexivity.
Defined.

(* --------------------------------------------------------------------- *)
(** *** Running the collector *)

Section Collect.
Variable self : AWSCostMetricCollector.
Variable w : World.

Lemma get_aws_cost_run :
  get_aws_cost self w
  = match rbind (answer self w) (fun resp =>
            rbind (list_getitem (ResultsByTime resp) 0) (fun first =>
            aggregate (Groups first))) with
    | Ok costs =>
        (Ok costs,
         with_events w
           (events w ++ [query_event self;
                         EvPrint (PCosts (self_time_range self) costs)]))
    | Raise e => (Raise e, with_events w (events w ++ [query_event self]))
    end.
Proof.
  unfold get_aws_cost, get_cost_and_usage, bind, emit, lift, print, ret.
  unfold answer, query_event. simpl.
  destruct (ce_get_cost_and_usage w _ _) as [resp|e]; simpl; [|reflexivity].
  destruct (list_getitem (ResultsByTime resp) 0) as [first|e]; simpl;
    [|reflexivity].
  destruct (aggregate (Groups first)) as [costs|e]; [|reflexivity].
  unfold with_events; simpl. now rewrite <- app_assoc.
Qed.

Lemma add_samples_fold (p : string) (entries : list (string * Z)) (m : Metric) :
  fold_left
    (fun m entry =>
       let s := individual_sample p entry in
       add_sample m (sample_name s) (value s) (sample_labels s))
    entries m
  = {| metric_name := metric_name m; documentation := documentation m;
       typ := typ m;
       samples := samples m ++ map (individual_sample p) entries |}.
Proof.
  revert m; induction entries as [|entry entries IH]; intros m; simpl.
  - rewrite app_nil_r. now destruct m.
  - rewrite IH. simpl. now rewrite <- app_assoc.
Qed.

(** [collect] yields one metric when the costs are obtained, and raises
    what [__get_aws_cost] raises otherwise. *)
Lemma collect_run :
  collect self w
  = match get_aws_cost self w with
    | (Ok costs, w') =>
        (Ok [{| metric_name := "aws_project_cost_as_per_service";
                documentation := "Service wise cost for an AWS account";
                typ := "gauge";
                samples :=
                  map (individual_sample (self_project self)) (Cost costs)
                  ++ [total_sample (self_project self) (Total costs)] |}],
         w')
    | (Raise e, w') => (Raise e, w')
    end.
Proof.
  unfold collect, bind, ret.
  destruct (get_aws_cost self w) as [[costs|e] w']; [|reflexivity].
  rewrite add_samples_fold. reflexivity.
Qed.

End Collect.

(* --------------------------------------------------------------------- *)
(** *** What a scrape yields *)

(** C2, as stated, fails: with the billing service out of reach the
    exception of the query comes out of [collect], to whoever iterates
    it. *)
Lemma C2_failure_reaches_caller :
  let self := Scenario.acme_collector "AmortizedCost" in
  let w := Scenario.scrape_world Scenario.ce_unreachable in
  answer self w = Raise (ClientError "GetCostAndUsage" "EndpointConnectionError")
  /\ fst (collect self w)
     = Raise (ClientError "GetCostAndUsage" "EndpointConnectionError")
  /\ ~ (exists metrics, fst (collect self w) = Ok metrics).
Proof.
  repeat split; try reflexivity.
  intros [metrics H]. discriminate H.
Qed.

(** C2, amended. When the billing query of a scrape fails, [collect]
    yields no metric, hence no sample, and the exception of the query is
    raised to its caller unchanged; nothing is printed. *)
Theorem C2_query_failure_propagates (self : AWSCostMetricCollector) (w : World)
    (e : exn) (H : answer self w = Raise e) :
  collect self w = (Raise e, with_events w (events w ++ [query_event self])).
Proof.
  rewrite collect_run, get_aws_cost_run, H. reflexivity.
Qed.

Lemma C2_query_failure_propagates_witness :
  collect (Scenario.acme_collector "AmortizedCost")
          (Scenario.scrape_world Scenario.ce_unreachable)
  = (Raise (ClientError "GetCostAndUsage" "EndpointConnectionError"),
     with_events (Scenario.scrape_world Scenario.ce_unreachable)
       [query_event (Scenario.acme_collector "AmortizedCost")]).
Proof.
  apply (C2_query_failure_propagates
           (Scenario.acme_collector "AmortizedCost")
           (Scenario.scrape_world Scenario.ce_unreachable)).
  reflexivity.
Defined.

(** C7. A scrape whose query and aggregation succeed yields one gauge
    metric with one sample per entry of the cost map, labelled with the
    project, the service and the type "individual_service" and valued
    with the integer cost, followed by one sample labelled with the
    project and the type "daily_total" and valued with the total: n + 1
    samples for n services, all with the project label, and 3 samples
    for two groups of two services. *)
Theorem C7_samples (self : AWSCostMetricCollector) (w : World)
    (resp : CostResponse) (first : ResultByTime) (costs : CostAsPerService)
    (Hq : answer self w = Ok resp)
    (Hf : nth_error (ResultsByTime resp) 0 = Some first)
    (Ha : aggregate (Groups first) = Ok costs) :
  exists metric,
    fst (collect self w) = Ok [metric]
    /\ typ metric = "gauge"
    /\ samples metric
       = (map (fun entry =>
                 {| sample_name := "aws_cost";
                    sample_labels :=
                      [("project", self_project self);
                       ("service", fst entry);
                       ("type", "individual_service")];
                    value := IntValue (snd entry) |})
              (PyDict.items (Cost costs))
          ++ [{| sample_name := "aws_cost";
                 sample_labels :=
                   [("project", self_project self); ("type", "daily_total")];
                 value := FloatValue (Total costs) |}])%list
    /\ List.length (samples metric) = S (List.length (Cost costs))
    /\ Forall (fun s => PyDict.get (sample_labels s) "project"
                        = Some (self_project self))
              (samples metric)
    /\ (forall x y,
          Forall2 reads (Groups first) [x; y] ->
          normalize_service (row_key x) <> normalize_service (row_key y) ->
          List.length (samples metric) = 3%nat).
Proof.
  eexists. rewrite collect_run, get_aws_cost_run, Hq. simpl.
  unfold list_getitem. rewrite Hf. simpl. rewrite Ha. simpl.
  split; [reflexivity|]. split; [reflexivity|]. split; [reflexivity|].
  split; [|split].
  - simpl. rewrite length_app, length_map. simpl. lia.
  - simpl. apply Forall_app. split.
    + apply Forall_forall. intros s Hs.
      apply in_map_iff in Hs as [entry [<- _]]. reflexivity.
    + repeat constructor.
  - intros x y Hr Hne. rewrite (aggregate_reads _ _ Hr) in Ha.
    injection Ha as <-. simpl.
    apply String.eqb_neq in Hne. rewrite Hne. reflexivity.
Qed.

Lemma C7_samples_witness :
  exists metric,
    fst (collect (Scenario.acme_collector "AmortizedCost")
                 (Scenario.scrape_world Scenario.ce_answers))
    = Ok [metric]
    /\ List.length (samples metric) = 3%nat
    /\ Forall (fun s => PyDict.get (sample_labels s) "project" = Some "acme")
              (samples metric).
Proof.
  destruct (C7_samples
              (Scenario.acme_collector "AmortizedCost")
              (Scenario.scrape_world Scenario.ce_answers)
              {| ResultsByTime :=
                   [{| Groups :=
                         [api_group "AmortizedCost"
                            "Amazon Elastic Compute Cloud" "12.40";
                          api_group "AmortizedCost"
                            "Amazon Simple Storage Service" "3.10"] |}] |}
              {| Groups :=
                   [api_group "AmortizedCost"
                      "Amazon Elastic Compute Cloud" "12.40";
                    api_group "AmortizedCost"
                      "Amazon Simple Storage Service" "3.10"] |}
              {| Cost := [("Amazon_Elastic_Compute_Cloud", 13);
                          ("Amazon_Simple_Storage_Service", 4)];
                 Total := S754_finite false (31 * 2 ^ 48) (-49) |}
              eq_refl eq_refl eq_refl)
    as (metric & Hm & _ & _ & Hlen & Hproj & _).
  exists metric. split; [exact Hm|]. split; [exact Hlen | exact Hproj].
Defined.

(** C10. A scrape whose query succeeds with an empty list of groups
    yields one metric with one sample, the "daily_total" of value 0.0. *)
Theorem C10_empty_groups (self : AWSCostMetricCollector) (w : World)
    (resp : CostResponse) (first : ResultByTime)
    (Hq : answer self w = Ok resp)
    (Hf : nth_error (ResultsByTime resp) 0 = Some first)
    (Hg : Groups first = []) :
  fst (collect self w)
  = Ok [{| metric_name := "aws_project_cost_as_per_service";
           documentation := "Service wise cost for an AWS account";
           typ := "gauge";
           samples :=
             [{| sample_name := "aws_cost";
                 sample_labels :=
                   [("project", self_project self); ("type", "daily_total")];
                 value := FloatValue (S754_zero false) |}] |}].
Proof.
  rewrite collect_run, get_aws_cost_run, Hq. simpl.
  unfold list_getitem. rewrite Hf. simpl. rewrite Hg. reflexivity.
Qed.

Lemma C10_empty_groups_witness :
  exists metric,
    fst (collect (Scenario.acme_collector "AmortizedCost")
                 (Scenario.scrape_world Scenario.ce_empty))
    = Ok [metric]
    /\ map value (samples metric) = [FloatValue PyFloat.zero].
Proof.
  eexists. split.
  - apply (C10_empty_groups
             (Scenario.acme_collector "AmortizedCost")
             (Scenario.scrape_world Scenario.ce_empty)
             {| ResultsByTime := [{| Groups := [] |}] |}
             {| Groups := [] |});
      reflexivity.
  - reflexivity.
Defined.

(* --------------------------------------------------------------------- *)
(** *** The window and the metric of the query *)

(** C1. The window of the query is the one stored when the collector was
    built, whatever the clock reads at the scrape: a collector built on
    2024-03-01 and scraped on 2024-03-03 still asks for 2024-02-29 to
    2024-03-01, while the window of the day before the scrape is
    2024-03-02 to 2024-03-03. *)
Theorem C1_window_fixed_at_construction :
  (forall self w,
      exists rest,
        events (snd (collect self w))
        = (events w
           ++ EvGetCostAndUsage (client_session (self_ce self))
                {| Request.TimePeriod := self_time_range self;
                   Request.Granularity := "DAILY";
                   Request.Metrics := [self_cost_type self];
                   Request.Filter := self_cost_filter self;
                   Request.GroupBy :=
                     [{| Type_ := "DIMENSION"; Key := "SERVICE" |}] |}
           :: rest)%list)
  /\ (let built :=
        Scenario.world (Scenario.at_time 2024 3 1 10 0 0)
          Scenario.sts_grants Scenario.ce_answers None in
      let scraped :=
        Scenario.world (Scenario.at_time 2024 3 3 0 0 5)
          Scenario.sts_grants Scenario.ce_answers
          (Some Scenario.acme_session) in
      let self := Scenario.acme_collector "AmortizedCost" in
      fst (AWSCostMetricCollector_init
             "acme" Scenario.acme_arn "eu-west-1" "AmortizedCost" JNull built)
      = Ok self
      /\ hd_error (events (snd (collect self scraped)))
         = Some (EvGetCostAndUsage Scenario.acme_session
                   {| Request.TimePeriod :=
                        {| Start := "2024-02-29"; End_ := "2024-03-01" |};
                      Request.Granularity := "DAILY";
                      Request.Metrics := ["AmortizedCost"];
                      Request.Filter := JNull;
                      Request.GroupBy :=
                        [{| Type_ := "DIMENSION"; Key := "SERVICE" |}] |})
      /\ computeWindow (clock scraped)
         = Ok {| Start := "2024-03-02"; End_ := "2024-03-03" |}).
Proof.
  split.
  - intros self w. rewrite collect_run, get_aws_cost_run.
    destruct (rbind (answer self w) _) as [costs|e]; simpl; eauto.
  - repeat split; reflexivity.
Qed.

(** C3. The query asks for the configured cost type, but the loop reads
    the amount under the name "AmortizedCost": with the cost type
    "UnblendedCost" and a service that answers with the metric asked
    for, the scrape raises [KeyError]. *)
Theorem C3_amount_read_under_fixed_name :
  let self := Scenario.acme_collector "UnblendedCost" in
  let w := Scenario.scrape_world Scenario.ce_answers in
  Request.Metrics (cost_request self) = ["UnblendedCost"]
  /\ answer self w
     = Ok {| ResultsByTime :=
               [{| Groups :=
                     [api_group "UnblendedCost"
                        "Amazon Elastic Compute Cloud" "12.40";
                      api_group "UnblendedCost"
                        "Amazon Simple Storage Service" "3.10"] |}] |}
  /\ fst (collect self w) = Raise (KeyError "AmortizedCost").
Proof. repeat split; reflexivity. Qed.

(* --------------------------------------------------------------------- *)
(** *** The calendar *)

Section Calendar.
Import PyDate PyDateSpec.

Lemma days_before_year_decomp (a b c d : Z) :
  0 <= b <= 3 -> 0 <= c <= 24 -> 0 <= d <= 3 ->
  days_before_year (400 * a + 100 * b + 4 * c + d + 1)
  = 146097 * a + 36524 * b + 1461 * c + 365 * d.
Proof.
  intros Hb Hc Hd. unfold days_before_year.
  replace (400 * a + 100 * b + 4 * c + d + 1 - 1)
    with (400 * a + 100 * b + 4 * c + d) by lia.
  Z.div_mod_to_equations; lia.
Qed.

Lemma is_leap_decomp (a b c d : Z) :
  0 <= b <= 3 -> 0 <= c <= 24 -> 0 <= d <= 3 ->
  is_leap (400 * a + 100 * b + 4 * c + d + 1)
  = (d =? 3) && (negb (c =? 24) || (b =? 3)).
Proof.
  intros Hb Hc Hd. unfold is_leap.
  destruct (Z.eqb_spec d 3), (Z.eqb_spec c 24), (Z.eqb_spec b 3);
    repeat match goal with
    | |- context [?x =? 0] => destruct (Z.eqb_spec x 0)
    end; simpl; try reflexivity; exfalso; Z.div_mod_to_equations; lia.
Qed.

Lemma month_day_checked :
  forallb (fun k => month_day_ok true (Z.of_nat k)
                    && month_day_ok false (Z.of_nat k)) (seq 0 365) = true.
Proof. vm_compute. reflexivity. Qed.

Lemma month_day_spec (leapyear : bool) (n : Z) :
  0 <= n < 365 -> month_day_ok leapyear n = true.
Proof.
  intros Hn.
  assert (Hin : In (Z.to_nat n) (seq 0 365)) by (apply in_seq; lia).
  pose proof (proj1 (forallb_forall _ _) month_day_checked _ Hin) as H.
  cbv beta in H. rewrite Z2Nat.id in H by lia.
  apply andb_true_iff in H as [Ht Hf].
  now destruct leapyear.
Qed.

Lemma ord2ymd_spec (n : Z) :
  1 <= n ->
  let '(y, m, d) := ord2ymd n in
  ymd2ord y m d = n
  /\ 1 <= m <= 12 /\ 1 <= d <= days_in_month y m
  /\ 1 <= y /\ days_before_year y < n.
Proof.
  intros Hn. unfold ord2ymd.
  set (n0 := n - 1).
  set (a := n0 / DI400Y). set (r1 := n0 mod DI400Y).
  set (b := r1 / DI100Y). set (r2 := r1 mod DI100Y).
  set (c := r2 / DI4Y). set (r3 := r2 mod DI4Y).
  set (d := r3 / 365). set (r := r3 mod 365).
  assert (Hdec : n0 = 146097 * a + 36524 * b + 1461 * c + 365 * d + r
                 /\ 0 <= a /\ 0 <= b <= 4 /\ 0 <= c <= 24 /\ 0 <= d <= 4
                 /\ 0 <= r < 365
                 /\ (b = 4 -> c = 0 /\ d = 0 /\ r = 0)
                 /\ (d = 4 -> r = 0 /\ c <= 23)).
  { subst a r1 b r2 c r3 d r. unfold DI400Y, DI100Y, DI4Y.
    Z.div_mod_to_equations. lia. }
  destruct Hdec as (Hn0 & Ha & Hb & Hc & Hd & Hr & Hb4 & Hd4).
  clearbody a b c d r. clear r1 r2 r3.
  destruct (Z.eqb_spec d 4) as [Ed|Ed]; cbn [orb].
  - destruct (Hd4 Ed) as [-> Hc23]. subst d.
    replace (a * 400 + 1 + b * 100 + c * 4 + 4 - 1)
      with (400 * a + 100 * b + 4 * c + 3 + 1) by lia.
    unfold ymd2ord, days_before_month, days_in_month.
    rewrite days_before_year_decomp, is_leap_decomp by lia.
    change (table DAYS_BEFORE_MONTH 12) with 334.
    change (table DAYS_IN_MONTH 12) with 31.
    change (3 =? 3) with true. change (12 =? 2) with false.
    change (2 <? 12) with true.
    destruct (Z.eqb_spec c 24); [lia|]. cbn [andb orb negb]. lia.
  - destruct (Z.eqb_spec b 4) as [Eb|Eb]; cbn [orb].
    + destruct (Hb4 Eb) as (-> & -> & ->). subst b.
      replace (a * 400 + 1 + 4 * 100 + 0 * 4 + 0 - 1)
        with (400 * a + 100 * 3 + 4 * 24 + 3 + 1) by lia.
      unfold ymd2ord, days_before_month, days_in_month.
      rewrite days_before_year_decomp, is_leap_decomp by lia.
      change (table DAYS_BEFORE_MONTH 12) with 334.
      change (table DAYS_IN_MONTH 12) with 31.
      change (3 =? 3) with true. change (12 =? 2) with false.
      change (2 <? 12) with true. change (24 =? 24) with true.
      cbn [andb orb negb]. lia.
    + replace (a * 400 + 1 + b * 100 + c * 4 + d)
        with (400 * a + 100 * b + 4 * c + d + 1) by lia.
      set (leapyear := (d =? 3) && (negb (c =? 24) || (b =? 3))).
      pose proof (month_day_spec leapyear r Hr) as Hmd.
      unfold month_day_ok in Hmd.
      destruct (month_day leapyear r) as [m dd].
      unfold ymd2ord, days_before_month, days_in_month.
      rewrite days_before_year_decomp, is_leap_decomp by lia.
      fold leapyear.
      repeat (apply andb_true_iff in Hmd as [Hmd ?]).
      lia.
Qed.

Lemma days_before_year_succ (y : Z) :
  days_before_year (y + 1)
  = days_before_year y + 365 + (if is_leap y then 1 else 0).
Proof.
  unfold days_before_year, is_leap.
  replace (y + 1 - 1) with y by lia.
  repeat match goal with
         | |- context [?x =? 0] => destruct (Z.eqb_spec x 0)
         end; cbn [andb orb negb]; Z.div_mod_to_equations; lia.
Qed.

Lemma days_before_year_mono (y1 y2 : Z) :
  y1 <= y2 -> days_before_year y1 <= days_before_year y2.
Proof.
  intros H. unfold days_before_year. Z.div_mod_to_equations. lia.
Qed.

Lemma month_cases (m : Z) :
  1 <= m <= 12 ->
  m = 1 \/ m = 2 \/ m = 3 \/ m = 4 \/ m = 5 \/ m = 6
  \/ m = 7 \/ m = 8 \/ m = 9 \/ m = 10 \/ m = 11 \/ m = 12.
Proof. lia. Qed.

Lemma ymd2ord_bounds (y m d : Z) :
  check_date_fields y m d = true ->
  days_before_year y < ymd2ord y m d <= days_before_year (y + 1).
Proof.
  unfold check_date_fields. intros H.
  repeat (apply andb_true_iff in H as [H ?]).
  rewrite days_before_year_succ.
  unfold ymd2ord, days_before_month.
  assert (Hm : 1 <= m <= 12) by lia.
  unfold days_in_month in *.
  destruct (is_leap y);
    destruct (month_cases m Hm) as
      [->|[->|[->|[->|[->|[->|[->|[->|[->|[->|[->| ->]]]]]]]]]]];
    vm_compute table in *; vm_compute Z.ltb; vm_compute Z.eqb in *;
    cbn [andb] in *; lia.
Qed.

Lemma digit_of_digit_char (k : Z) :
  0 <= k <= 9 -> PyFloat.digit_of (digit_char k) = Some k.
Proof.
  intros H.
  assert (Hk : k = 0 \/ k = 1 \/ k = 2 \/ k = 3 \/ k = 4 \/ k = 5
               \/ k = 6 \/ k = 7 \/ k = 8 \/ k = 9) by lia.
  destruct Hk as [->|[->|[->|[->|[->|[->|[->|[->|[->| ->]]]]]]]]];
    reflexivity.
Qed.

Lemma mod10_digit (n : Z) : 0 <= n mod 10 <= 9.
Proof. pose proof (Z.mod_pos_bound n 10). lia. Qed.

(** From the year 1000 on the year has its four digits. *)
Lemma decimal_four_digits (y : Z) :
  1000 <= y <= 9999 -> decimal 4 y = zfill 4 y.
Proof.
  intros Hy. unfold decimal, zfill.
  assert (H1 : (y <? 10) = false) by (apply Z.ltb_ge; lia).
  assert (H2 : (y / 10 <? 10) = false)
    by (apply Z.ltb_ge; Z.div_mod_to_equations; lia).
  assert (H3 : (y / 10 / 10 <? 10) = false)
    by (apply Z.ltb_ge; Z.div_mod_to_equations; lia).
  assert (H4 : (y / 10 / 10 / 10 <? 10) = true)
    by (apply Z.ltb_lt; Z.div_mod_to_equations; lia).
  rewrite H1, H2, H3, H4. cbn [append].
  replace ((y / 10 / 10 / 10) mod 10) with (y / 10 / 10 / 10)
    by (Z.div_mod_to_equations; lia).
  reflexivity.
Qed.

Lemma parse_strftime (t : datetime) :
  1000 <= year t <= 9999 -> 0 <= month t <= 99 -> 0 <= day t <= 99 ->
  parse_ymd (strftime_ymd t) = Some (year t, month t, day t).
Proof.
  intros Hy Hm Hd. unfold strftime_ymd.
  rewrite (decimal_four_digits _ Hy). unfold zfill.
  cbn [append]. unfold parse_ymd.
  rewrite !digit_of_digit_char by apply mod10_digit.
  cbn [Ascii.eqb Bool.eqb andb].
  repeat f_equal; Z.div_mod_to_equations; lia.
Qed.

Lemma sub_one_day_at_midnight (y m d : Z) :
  check_date_fields y m d = true -> 1 < ymd2ord y m d ->
  exists y' m' d',
    ord2ymd (ymd2ord y m d - 1) = (y', m', d')
    /\ sub {| year := y; month := m; day := d;
              hour := 0; minute := 0; second := 0; microsecond := 0 |}
           (timedelta_days 1)
       = Ok {| year := y'; month := m'; day := d';
               hour := 0; minute := 0; second := 0; microsecond := 0 |}.
Proof.
  intros Hc Hord.
  destruct (ord2ymd (ymd2ord y m d - 1)) as [[y' m'] d'] eqn:E.
  exists y', m', d'. split; [reflexivity|].
  unfold sub, to_microseconds, timedelta_microseconds, toordinal,
    timedelta_days, US_PER_DAY, US_PER_SECOND.
  cbn [year month day hour minute second microsecond
       td_days td_seconds td_microseconds].
  set (o := ymd2ord y m d) in *.
  replace (o * (86400 * 1000000) + (0 * 3600 + 0 * 60 + 0) * 1000000 + 0
           - (1 * (86400 * 1000000) + 0 * 1000000 + 0))
    with ((o - 1) * (86400 * 1000000)) by lia.
  rewrite Z.div_mul, Z.mod_mul by lia.
  pose proof (ymd2ord_bounds y m d Hc) as Hb. fold o in Hb.
  assert (Hmax : days_before_year (y + 1) <= MAXORDINAL).
  { unfold check_date_fields in Hc.
    repeat (apply andb_true_iff in Hc as [Hc ?]).
    change MAXORDINAL with (days_before_year (9999 + 1)).
    apply days_before_year_mono. unfold MAXYEAR in *. lia. }
  destruct (0 <? o - 1) eqn:E1; [|lia].
  destruct (o - 1 <=? MAXORDINAL) eqn:E2; [|lia].
  cbn [andb]. rewrite E. reflexivity.
Qed.

Lemma days_in_month_bounds (y m : Z) :
  1 <= m <= 12 -> 28 <= days_in_month y m <= 31.
Proof.
  intros Hm. unfold days_in_month.
  destruct (is_leap y);
    destruct (month_cases m Hm) as
      [->|[->|[->|[->|[->|[->|[->|[->|[->|[->|[->| ->]]]]]]]]]]];
    vm_compute; intuition discriminate.
Qed.

Lemma check_date_fields_iff (y m d : Z) :
  check_date_fields y m d = true
  <-> 1 <= y <= 9999 /\ 1 <= m <= 12 /\ 1 <= d <= days_in_month y m.
Proof.
  unfold check_date_fields, MINYEAR, MAXYEAR.
  rewrite !andb_true_iff, !Z.leb_le. intuition.
Qed.

Lemma check_time_fields_iff (h mi s us : Z) :
  check_time_fields h mi s us = true
  <-> 0 <= h <= 23 /\ 0 <= mi <= 59 /\ 0 <= s <= 59 /\ 0 <= us <= 999999.
Proof.
  unfold check_time_fields.
  rewrite !andb_true_iff, !Z.leb_le. intuition.
Qed.

(** C6. For every reading [now] of the clock (a value of [datetime],
    not before 1970) the window is computed; its end is [now] truncated
    to midnight, its start is exactly one day earlier, and both bounds
    are rendered as YYYY-MM-DD texts that denote those dates. *)
Theorem C6_time_window (now : datetime)
    (Hvalid : valid now = true) (Hepoch : 1970 <= year now) :
  exists start end_ : datetime,
    computeWindow now
    = Ok {| Start := strftime_ymd start; End_ := strftime_ymd end_ |}
    /\ end_ = {| year := year now; month := month now; day := day now;
                 hour := 0; minute := 0; second := 0; microsecond := 0 |}
    /\ to_microseconds end_
       = to_microseconds now - to_microseconds now mod US_PER_DAY
    /\ to_microseconds end_ - to_microseconds start = US_PER_DAY
    /\ valid start = true
    /\ parse_ymd (strftime_ymd start)
       = Some (year start, month start, day start)
    /\ parse_ymd (strftime_ymd end_)
       = Some (year end_, month end_, day end_).
Proof.
  unfold valid in Hvalid. apply andb_true_iff in Hvalid as [Hd Ht].
  pose proof (ymd2ord_bounds _ _ _ Hd) as Hb.
  pose proof (days_before_year_mono 1970 (year now) Hepoch) as Hmono.
  change (days_before_year 1970) with 719162 in Hmono.
  assert (Hord : 1 < ymd2ord (year now) (month now) (day now)) by lia.
  destruct (sub_one_day_at_midnight _ _ _ Hd Hord)
    as (y' & m' & d' & Eo & Esub).
  pose proof (ord2ymd_spec (ymd2ord (year now) (month now) (day now) - 1)
                ltac:(lia)) as Hspec.
  rewrite Eo in Hspec. destruct Hspec as (Hrt & Hm' & Hd' & Hy' & Hlt).
  apply check_date_fields_iff in Hd as Hdate.
  destruct Hdate as (Hy & Hm & Hdd).
  apply check_time_fields_iff in Ht as (Hh & Hmi & Hs & Hus).
  assert (Hy'max : y' <= 9999).
  { destruct (Z_le_gt_dec y' 9999) as [|Hgt]; [assumption|].
    pose proof (days_before_year_mono (year now + 1) y' ltac:(lia)). lia. }
  pose proof (days_in_month_bounds (year now) (month now) Hm).
  pose proof (days_in_month_bounds y' m' Hm').
  assert (Hy'min : 1000 <= y').
  { assert (Hc' : check_date_fields y' m' d' = true)
      by (apply check_date_fields_iff; lia).
    pose proof (ymd2ord_bounds _ _ _ Hc') as Hb'.
    destruct (Z_le_gt_dec 1000 y') as [|Hlow]; [assumption|].
    pose proof (days_before_year_mono (y' + 1) 1000 ltac:(lia)) as Hm1000.
    change (days_before_year 1000) with 364877 in Hm1000. lia. }
  eexists {| year := y'; month := m'; day := d';
             hour := 0; minute := 0; second := 0; microsecond := 0 |}.
  exists {| year := year now; month := month now; day := day now;
            hour := 0; minute := 0; second := 0; microsecond := 0 |}.
  split; [|split; [reflexivity|]].
  { unfold computeWindow, datetime_ymd. rewrite Hd. cbn [rbind].
    rewrite Esub. reflexivity. }
  unfold to_microseconds, toordinal, US_PER_DAY, US_PER_SECOND.
  cbn [year month day hour minute second microsecond].
  rewrite Hrt.
  set (o := ymd2ord (year now) (month now) (day now)) in *.
  split; [Z.div_mod_to_equations; lia|].
  split; [lia|].
  split.
  { unfold valid. cbn [year month day hour minute second microsecond].
    apply andb_true_iff. split; [|reflexivity].
    apply check_date_fields_iff. lia. }
  split;
    [apply (parse_strftime (Build_datetime y' m' d' 0 0 0 0))
    |apply (parse_strftime
              (Build_datetime (year now) (month now) (day now) 0 0 0 0))];
    cbn [year month day]; lia.
Qed.

Lemma C6_time_window_witness :
  exists start end_ : datetime,
    computeWindow (Scenario.at_time 2024 3 1 10 0 0)
    = Ok {| Start := strftime_ymd start; End_ := strftime_ymd end_ |}
    /\ to_microseconds end_ - to_microseconds start = US_PER_DAY.
Proof.
  destruct (C6_time_window (Scenario.at_time 2024 3 1 10 0 0)
              eq_refl ltac:(discriminate))
    as (start & end_ & Hw & _ & _ & Hday & _).
  exists start, end_. split; [exact Hw | exact Hday].
Defined.

(** The first day of [datetime] has no day before it. *)
Example computeWindow_first_day :
  computeWindow (Scenario.at_time 1 1 1 0 0 0) = Raise OverflowError.
Proof. reflexivity. Qed.

(** [__get_time_range] is the window of the clock. *)
Lemma get_time_range_run (w : World) :
  get_time_range w = (computeWindow (clock w), w).
Proof. reflexivity. Qed.

End Calendar.

(* --------------------------------------------------------------------- *)
(** *** Start-up *)

Lemma bind_ok {A B : Type} (c : M A) (k : A -> M B) (w w' : World) (a : A) :
  c w = (Ok a, w') -> bind c k w = k a w'.
Proof. unfold bind. now intros ->. Qed.

(** [Constants.__init__] acts on nothing; of the world it reads the JSON
    reader only. *)
Lemma Constants_init_pure (d : document) (w : World) (l : list event) :
  Constants_init d (with_events w l)
  = (fst (Constants_init d w), with_events w l).
Proof.
  destruct d as [cfg|]; [|reflexivity].
  unfold Constants_init, bind, lift, ret. cbn [json_loads with_events].
  destruct (int (get_or (cfg_scrape_interval cfg) (YInt 1))); [|reflexivity].
  destruct (int (get_or (cfg_port cfg) (YInt 4298))); [|reflexivity].
  destruct (cfg_project cfg); [|reflexivity].
  destruct (cfg_role_arn cfg); [|reflexivity]. cbn [or_raise].
  destruct (json_loads w _); reflexivity.
Qed.

Lemma Constants_init_run (cfg : Config) (w : World) (days prt : Z)
    (p arn : string) (flt : json) :
  int (get_or (cfg_scrape_interval cfg) (YInt 1)) = Ok days ->
  int (get_or (cfg_port cfg) (YInt 4298)) = Ok prt ->
  cfg_project cfg = Some p ->
  cfg_role_arn cfg = Some arn ->
  json_loads w (get_or (cfg_filter cfg) DEFAULT_FILTER) = Ok flt ->
  fst (Constants_init (Mapping cfg) w)
  = Ok {| scrape_interval := days * 86400; port := prt;
          project := p; role_arn := arn;
          region := get_or (cfg_region cfg) "us-east-1";
          cost_type := get_or (cfg_cost_type cfg) "AmortizedCost";
          cost_filter := flt |}.
Proof.
  intros Hd Hport Hp Harn Hflt. unfold Constants_init, bind, lift, ret.
  rewrite Hd, Hport, Hp, Harn. cbn [or_raise]. rewrite Hflt. reflexivity.
Qed.

Lemma switch_to_client_account_run (sts : Client) (arn region : string)
    (w : World) :
  switch_to_client_account sts arn region w
  = let called :=
      with_events w (events w ++ [EvAssumeRole arn "inv_master"]) in
    match sts_assume_role w arn "inv_master" with
    | Raise e => (Raise e, called)
    | Ok granted =>
        let session :=
          AssumedSession region
            (AccessKeyId (RoleCredentials granted))
            (SecretAccessKey (RoleCredentials granted))
            (SessionToken (RoleCredentials granted)) in
        (Ok tt,
         with_events (with_default_session w session)
           (events w ++ [EvAssumeRole arn "inv_master";
                         EvSetupDefaultSession session]))
    end.
Proof.
  unfold switch_to_client_account, assume_role, bind, emit,
    boto3_setup_default_session. cbn [events with_events sts_assume_role].
  destruct (sts_assume_role w arn "inv_master") as [granted|e];
    [|reflexivity].
  unfold with_events, with_default_session; cbn. now rewrite <- app_assoc.
Qed.

Lemma AWSCostMetricCollector_init_run
    (p arn reg ct : string) (flt : json) (w : World) :
  AWSCostMetricCollector_init p arn reg ct flt w
  = let ambient := get_or (default_session w) AmbientSession in
    let before := [EvClient "sts"; EvAssumeRole arn "inv_master"] in
    match sts_assume_role w arn "inv_master" with
    | Raise e =>
        (Raise e,
         with_events (with_default_session w ambient) (events w ++ before))
    | Ok granted =>
        let session :=
          AssumedSession reg
            (AccessKeyId (RoleCredentials granted))
            (SecretAccessKey (RoleCredentials granted))
            (SessionToken (RoleCredentials granted)) in
        let w' :=
          with_events (with_default_session w session)
            (events w ++ before
             ++ [EvSetupDefaultSession session; EvClient "ce"]) in
        match computeWindow (clock w) with
        | Raise e => (Raise e, w')
        | Ok window =>
            (Ok {| self_project := p; self_role_arn := arn;
                   self_region := reg;
                   self_sts := {| client_service := "sts";
                                  client_session := ambient |};
                   self_ce := {| client_service := "ce";
                                 client_session := session |};
                   self_time_range := window;
                   self_cost_type := ct;
                   self_cost_filter := flt |}, w')
        end
    end.
Proof.
  unfold AWSCostMetricCollector_init, boto3_client, get_time_range,
    datetime_utcnow, lift, ret, bind.
  rewrite switch_to_client_account_run.
  cbn [sts_assume_role clock events default_session with_events
       with_default_session get_or].
  destruct (sts_assume_role w arn "inv_master") as [granted|e].
  - cbv zeta.
    cbn [sts_assume_role clock events default_session with_events
         with_default_session get_or].
    destruct (computeWindow (clock w)) as [window|e];
      repeat rewrite <- app_assoc; cbn [app];
      destruct (default_session w); reflexivity.
  - cbv zeta. repeat rewrite <- app_assoc; cbn [app].
    destruct (default_session w); reflexivity.
Qed.

(** Registering runs one collection; the collector is registered when
    the collection yields and its name is new. *)
Lemma REGISTRY_register_run (c : AWSCostMetricCollector) (w : World) :
  REGISTRY_register c w
  = match aggregate_answer c w with
    | Raise e => (Raise e, with_events w (events w ++ [query_event c]))
    | Ok costs =>
        let collected :=
          [query_event c; EvPrint (PCosts (self_time_range c) costs)] in
        if existsb (String.eqb "aws_project_cost_as_per_service") (registry w)
        then (Raise ValueError, with_events w (events w ++ collected))
        else
          (Ok tt,
           with_events
             (with_registry w
                (registry w ++ ["aws_project_cost_as_per_service"]))
             (events w ++ collected ++ [EvRegister c]))
    end.
Proof.
  unfold REGISTRY_register, bind.
  rewrite collect_run, get_aws_cost_run. unfold aggregate_answer.
  destruct (rbind (answer c w) _) as [costs|e]; [|reflexivity].
  cbn [map metric_name existsb registry with_events]. rewrite orb_false_r.
  destruct (existsb _ (registry w)); [reflexivity|].
  unfold emit, with_events, with_registry.
  cbn [clock sts_assume_role ce_get_cost_and_usage json_loads http_listen
       default_session registry events].
  now rewrite <- app_assoc.
Qed.

(** A configuration [Constants] refuses ends the script when it has
    announced the reading. *)
Lemma main_config_error (d : document) (w : World) (e : exn) :
  fst (Constants_init d w) = Raise e ->
  main (Some (Ok d)) w
  = (Raise e,
     with_events w (events w ++ [EvPrint (PText "Reading config file")])).
Proof.
  intros He. unfold main.
  erewrite bind_ok by reflexivity.
  unfold bind at 1. rewrite Constants_init_pure, He. reflexivity.
Qed.

(** With its configuration read, the script announces it, starts the
    server, builds the collector and registers it. *)
Lemma main_configured_run (d : document) (w : World) (config : Constants) :
  fst (Constants_init d w) = Ok config ->
  let announced :=
    with_events w
      (events w ++ [EvPrint (PText "Reading config file");
                    EvPrint (PConfig config)]) in
  let served :=
    with_events w
      (events w ++ [EvPrint (PText "Reading config file");
                    EvPrint (PConfig config);
                    EvStartHttpServer (port config);
                    EvPrint (PStarted (port config))]) in
  main (Some (Ok d)) w
  = match http_listen w (port config) with
    | Raise e => (Raise e, announced)
    | Ok _ =>
        if (0 <=? port config) && (port config <=? 65535) then
          match AWSCostMetricCollector_init
                  (project config) (role_arn config) (region config)
                  (cost_type config) (cost_filter config) served with
          | (Ok c, w') => REGISTRY_register c w'
          | (Raise e, w') => (Raise e, w')
          end
        else (Raise OverflowError, announced)
    end.
Proof.
  intros Hc announced served. unfold main.
  erewrite bind_ok by reflexivity.
  erewrite bind_ok by (rewrite Constants_init_pure, Hc; reflexivity).
  erewrite bind_ok by reflexivity.
  unfold exporter_config. unfold bind at 1. unfold start_http_server.
  cbn [events with_events http_listen].
  rewrite <- app_assoc. cbn [app]. fold announced.
  destruct (http_listen w (port config)) as [[]|e]; [|reflexivity].
  destruct ((0 <=? port config) && (port config <=? 65535)); [|reflexivity].
  unfold emit. erewrite bind_ok by reflexivity.
  unfold bind. subst announced served.
  cbn [events with_events]. repeat rewrite <- app_assoc. cbn [app].
  unfold with_events at 2 3.
  cbn [clock sts_assume_role ce_get_cost_and_usage json_loads http_listen
       default_session registry events].
  unfold with_events at 2.
  cbn [clock sts_assume_role ce_get_cost_and_usage json_loads http_listen
       default_session registry events].
  fold (with_events w
          (events w ++ [EvPrint (PText "Reading config file");
                        EvPrint (PConfig config);
                        EvStartHttpServer (port config);
                        EvPrint (PStarted (port config))])).
  destruct (AWSCostMetricCollector_init _ _ _ _ _ _) as [[c|e] w'];
    reflexivity.
Qed.

(** C5, as stated, fails: the HTTP server is started before the role is
    assumed.  When the assumption is denied the server is already up;
    the exception then ends the start-up script. *)
Lemma C5_server_starts_before_assumption :
  let w := Scenario.world (Scenario.at_time 2024 3 1 10 0 0)
             Scenario.sts_denies Scenario.ce_answers None in
  fst (main (Some (Ok (Mapping (Scenario.acme_config None)))) w)
  = Raise (ClientError "AssumeRole" "AccessDenied")
  /\ events (snd (main (Some (Ok (Mapping (Scenario.acme_config None)))) w))
     = [EvPrint (PText "Reading config file");
        EvPrint (PConfig {| scrape_interval := 86400; port := 4298;
                            project := "acme";
                            role_arn := Scenario.acme_arn;
                            region := "eu-west-1";
                            cost_type := "AmortizedCost";
                            cost_filter := JNull |});
        EvStartHttpServer 4298;
        EvPrint (PStarted 4298);
        EvClient "sts";
        EvAssumeRole Scenario.acme_arn "inv_master"].
Proof. split; reflexivity. Qed.

(** C5, amended. With a complete configuration the start-up script
    starts the HTTP server first; when the server cannot be started (the
    system refuses the port, or the port is outside 0..65535) the script
    ends there, before any assumption.  It assumes the role after
    that, once.  When the assumption fails its exception ends the
    script: no session is set up, no billing client is created and no
    collector is registered.  When it succeeds the session of the
    granted credentials becomes the default one, the billing client is
    created on it and, the window computed, the collector is handed to
    the registry, which runs one collection on that session: if the
    collection raises, or the metric's name is registered already, the
    script ends with that exception; otherwise the collector is
    registered. *)
Theorem C5_startup_order (cfg : Config) (w : World) (days prt : Z)
    (p arn : string) (flt : json)
    (Hdays : int (get_or (cfg_scrape_interval cfg) (YInt 1)) = Ok days)
    (Hport : int (get_or (cfg_port cfg) (YInt 4298)) = Ok prt)
    (Hp : cfg_project cfg = Some p)
    (Harn : cfg_role_arn cfg = Some arn)
    (Hflt : json_loads w (get_or (cfg_filter cfg) DEFAULT_FILTER) = Ok flt) :
  let run := main (Some (Ok (Mapping cfg))) w in
  let config :=
    {| scrape_interval := days * 86400; port := prt;
       project := p; role_arn := arn;
       region := get_or (cfg_region cfg) "us-east-1";
       cost_type := get_or (cfg_cost_type cfg) "AmortizedCost";
       cost_filter := flt |} in
  let announced :=
    [EvPrint (PText "Reading config file"); EvPrint (PConfig config)] in
  let ambient := get_or (default_session w) AmbientSession in
  let before :=
    (announced
     ++ [EvStartHttpServer prt;
         EvPrint (PStarted prt);
         EvClient "sts";
         EvAssumeRole arn "inv_master"])%list in
  match http_listen w prt with
  | Raise e => run = (Raise e, with_events w (events w ++ announced))
  | Ok _ =>
  if negb ((0 <=? prt) && (prt <=? 65535))
  then run = (Raise OverflowError, with_events w (events w ++ announced))
  else
  match sts_assume_role w arn "inv_master" with
  | Raise e =>
      run
      = (Raise e,
         with_events (with_default_session w ambient) (events w ++ before))
  | Ok granted =>
      let session :=
        AssumedSession (region config)
          (AccessKeyId (RoleCredentials granted))
          (SecretAccessKey (RoleCredentials granted))
          (SessionToken (RoleCredentials granted)) in
      let after := [EvSetupDefaultSession session; EvClient "ce"] in
      match computeWindow (clock w) with
      | Raise e =>
          run
          = (Raise e,
             with_events (with_default_session w session)
               (events w ++ before ++ after))
      | Ok window =>
          let collector :=
            {| self_project := p; self_role_arn := arn;
               self_region := region config;
               self_sts := {| client_service := "sts";
                              client_session := ambient |};
               self_ce := {| client_service := "ce";
                             client_session := session |};
               self_time_range := window;
               self_cost_type := cost_type config;
               self_cost_filter := flt |} in
          match aggregate_answer collector w with
          | Raise e =>
              run
              = (Raise e,
                 with_events (with_default_session w session)
                   (events w ++ before ++ after ++ [query_event collector]))
          | Ok costs =>
              let collected :=
                [query_event collector; EvPrint (PCosts window costs)] in
              if existsb (String.eqb "aws_project_cost_as_per_service")
                         (registry w)
              then
                run
                = (Raise ValueError,
                   with_events (with_default_session w session)
                     (events w ++ before ++ after ++ collected))
              else
                run
                = (Ok tt,
                   with_events
                     (with_registry (with_default_session w session)
                        (registry w ++ ["aws_project_cost_as_per_service"]))
                     (events w ++ before ++ after ++ collected
                      ++ [EvRegister collector]))
          end
      end
  end
  end.
Proof.
  intros run config announced ambient before. subst run.
  rewrite (main_configured_run (Mapping cfg) w config)
    by (apply Constants_init_run; assumption).
  cbv zeta. subst config. cbn [port project role_arn region cost_type
                               cost_filter].
  destruct (http_listen w prt) as [[]|e]; [|reflexivity].
  destruct ((0 <=? prt) && (prt <=? 65535)); [|reflexivity].
  cbn [negb].
  rewrite AWSCostMetricCollector_init_run.
  cbn [sts_assume_role clock events default_session with_events].
  destruct (sts_assume_role w arn "inv_master") as [granted|e].
  2:{ subst before announced ambient.
      unfold with_events, with_default_session;
        cbn [clock sts_assume_role ce_get_cost_and_usage json_loads
             http_listen default_session registry events];
        repeat rewrite <- app_assoc; cbn [app]; reflexivity. }
  cbv zeta.
  destruct (computeWindow (clock w)) as [window|e].
  2:{ subst before announced ambient.
      unfold with_events, with_default_session;
        cbn [clock sts_assume_role ce_get_cost_and_usage json_loads
             http_listen default_session registry events];
        repeat rewrite <- app_assoc; cbn [app]; reflexivity. }
  rewrite REGISTRY_register_run.
  unfold aggregate_answer, answer.
  cbn [ce_get_cost_and_usage with_events with_default_session registry
       events self_ce client_session self_time_range].
  destruct (rbind (ce_get_cost_and_usage w _ _) _) as [costs|e].
  2:{ subst before announced ambient.
      unfold with_events, with_default_session;
        cbn [clock sts_assume_role ce_get_cost_and_usage json_loads
             http_listen default_session registry events];
        repeat rewrite <- app_assoc; cbn [app]; reflexivity. }
  cbv zeta.
  destruct (existsb _ (registry w));
    subst before announced ambient;
    unfold with_events, with_default_session, with_registry;
    cbn [clock sts_assume_role ce_get_cost_and_usage json_loads
         http_listen default_session registry events];
    repeat rewrite <- app_assoc; cbn [app]; reflexivity.
Qed.

Lemma C5_startup_order_witness :
  exists w',
    main (Some (Ok (Mapping (Scenario.acme_config None))))
         (Scenario.world (Scenario.at_time 2024 3 1 10 0 0)
            Scenario.sts_grants Scenario.ce_answers None)
    = (Ok tt, w')
    /\ default_session w' = Some Scenario.acme_session
    /\ registry w' = ["aws_project_cost_as_per_service"].
Proof.
  eexists. split.
  - exact (C5_startup_order (Scenario.acme_config None)
             (Scenario.world (Scenario.at_time 2024 3 1 10 0 0)
                Scenario.sts_grants Scenario.ce_answers None)
             1 4298 "acme" Scenario.acme_arn JNull
             eq_refl eq_refl eq_refl eq_refl eq_refl).
  - split; reflexivity.
Defined.

(* ===================================================================== *)
(** * Further properties *)
(* ===================================================================== *)

(* --------------------------------------------------------------------- *)
(** *** Configuration errors *)

(** [Constants.__init__] on a mapping, step by step. *)
Lemma Constants_init_cases (cfg : Config) (w : World) :
  fst (Constants_init (Mapping cfg) w)
  = match int (get_or (cfg_scrape_interval cfg) (YInt 1)) with
    | Raise e => Raise e
    | Ok days =>
    match int (get_or (cfg_port cfg) (YInt 4298)) with
    | Raise e => Raise e
    | Ok prt =>
    match cfg_project cfg with
    | None => Raise (KeyError "project")
    | Some p =>
    match cfg_role_arn cfg with
    | None => Raise (KeyError "role_arn")
    | Some arn =>
    match json_loads w (get_or (cfg_filter cfg) DEFAULT_FILTER) with
    | Raise e => Raise e
    | Ok flt =>
        Ok {| scrape_interval := days * 86400; port := prt;
              project := p; role_arn := arn;
              region := get_or (cfg_region cfg) "us-east-1";
              cost_type := get_or (cfg_cost_type cfg) "AmortizedCost";
              cost_filter := flt |}
    end end end end end.
Proof.
  unfold Constants_init, bind, lift, ret.
  destruct (int (get_or (cfg_scrape_interval cfg) (YInt 1))); [|reflexivity].
  destruct (int (get_or (cfg_port cfg) (YInt 4298))); [|reflexivity].
  destruct (cfg_project cfg); [|reflexivity].
  destruct (cfg_role_arn cfg); [|reflexivity]. cbn [or_raise].
  destruct (json_loads w _); reflexivity.
Qed.

(** A file that cannot be read or parsed ends the script when it has
    announced the reading. *)
Lemma main_unreadable (w : World) (e : exn) :
  main (Some (Raise e)) w
  = (Raise e,
     with_events w (events w ++ [EvPrint (PText "Reading config file")])).
Proof. reflexivity. Qed.

(** X1. What ends the start-up script before the server is started, in
    the order in which the script meets it: a file that cannot be read
    or parsed; a document that is not a mapping, [AttributeError]; a
    [scrape_interval], and then a [port], that [int] refuses; no
    [project], and then no [role_arn], [KeyError]; a filter the JSON
    reader refuses.  Only the reading of the file has been announced
    then.  Without a file the script ends with [KeyError] for
    "project".  [int] reads a text with blanks at its ends, a sign and
    underscores between digits, cuts a float, and refuses other texts
    with [ValueError] and what is no number with [TypeError]. *)
Theorem X1_config_errors_end_startup (cfg : Config) (w : World) :
  let announced :=
    with_events w (events w ++ [EvPrint (PText "Reading config file")]) in
  let run := main (Some (Ok (Mapping cfg))) w in
  (forall w0, main None w0 = (Raise (KeyError "project"), w0))
  /\ (forall e, main (Some (Raise e)) w = (Raise e, announced))
  /\ main (Some (Ok NotMapping)) w = (Raise AttributeError, announced)
  /\ match int (get_or (cfg_scrape_interval cfg) (YInt 1)) with
     | Raise e => run = (Raise e, announced)
     | Ok _ =>
     match int (get_or (cfg_port cfg) (YInt 4298)) with
     | Raise e => run = (Raise e, announced)
     | Ok _ =>
         (cfg_project cfg = None ->
          run = (Raise (KeyError "project"), announced))
         /\ (cfg_project cfg <> None -> cfg_role_arn cfg = None ->
             run = (Raise (KeyError "role_arn"), announced))
         /\ (forall e,
               cfg_project cfg <> None -> cfg_role_arn cfg <> None ->
               json_loads w (get_or (cfg_filter cfg) DEFAULT_FILTER)
               = Raise e ->
               run = (Raise e, announced))
     end end
  /\ map int [YInt 9100; YStr "9100"; YStr " +9_100 "; YBinary "9100";
              YBool true; YFloat (S754_finite false 3 (-1));
              YFloat (S754_finite true 3 (-1))]
     = [Ok 9100; Ok 9100; Ok 9100; Ok 9100; Ok 1; Ok 1; Ok (-1)]
  /\ map int [YStr "abc"; YStr ""; YStr "9100.0"; YStr "9_"; YStr "0x10";
              YStr (String (ascii_of_nat 28) "9100"); YFloat S754_nan]
     = [Raise ValueError; Raise ValueError; Raise ValueError;
        Raise ValueError; Raise ValueError; Raise ValueError;
        Raise ValueError]
  /\ map int [YNull; YOther; YFloat (S754_infinity false)]
     = [Raise TypeError; Raise TypeError; Raise OverflowError].
Proof.
  intros announced run.
  split; [reflexivity|]. split; [reflexivity|]. split; [reflexivity|].
  split; [|repeat split; vm_compute; reflexivity].
  subst run.
  pose proof (Constants_init_cases cfg w) as Hc.
  destruct (int (get_or (cfg_scrape_interval cfg) (YInt 1))) as [days|e];
    [|now apply main_config_error].
  destruct (int (get_or (cfg_port cfg) (YInt 4298))) as [prt|e];
    [|now apply main_config_error].
  split; [|split].
  - intros Hp. rewrite Hp in Hc. now apply main_config_error.
  - intros Hp Ha. destruct (cfg_project cfg) as [p|]; [|contradiction].
    rewrite Ha in Hc. now apply main_config_error.
  - intros e Hp Ha He.
    destruct (cfg_project cfg) as [p|]; [|contradiction].
    destruct (cfg_role_arn cfg) as [arn|]; [|contradiction].
    rewrite He in Hc. now apply main_config_error.
Qed.

Lemma X1_config_errors_end_startup_witness :
  main (Some (Ok (Mapping
          {| cfg_scrape_interval := Some (YInt 2);
             cfg_port := Some (YStr "9100");
             cfg_project := Some "acme"; cfg_role_arn := None;
             cfg_region := None; cfg_cost_type := None;
             cfg_filter := None |})))
       (Scenario.scrape_world Scenario.ce_answers)
  = (Raise (KeyError "role_arn"),
     with_events (Scenario.scrape_world Scenario.ce_answers)
       [EvPrint (PText "Reading config file")]).
Proof.
  apply (proj1 (proj2 (proj1 (proj2 (proj2 (proj2
           (X1_config_errors_end_startup
              {| cfg_scrape_interval := Some (YInt 2);
                 cfg_port := Some (YStr "9100");
                 cfg_project := Some "acme"; cfg_role_arn := None;
                 cfg_region := None; cfg_cost_type := None;
                 cfg_filter := None |}
              (Scenario.scrape_world Scenario.ce_answers)))))))).
  - discriminate.
  - reflexivity.
Defined.

(** X2. The default of the [filter] key has a comma before a closing
    brace.  With a JSON reader that refuses such texts, as [json.loads]
    does, every configuration without the key [filter] ends the start-up
    script with an exception before the server is started: the reader's,
    unless [int] has refused the [scrape_interval] or the [port]
    before. *)
Theorem X2_default_filter_is_refused (cfg : Config) (w : World)
    (p arn : string)
    (Hstrict : JsonText.strict (json_loads w))
    (Hp : cfg_project cfg = Some p)
    (Harn : cfg_role_arn cfg = Some arn)
    (Hfilter : cfg_filter cfg = None) :
  JsonText.comma_before_close DEFAULT_FILTER = true
  /\ exists e,
       main (Some (Ok (Mapping cfg))) w
       = (Raise e,
          with_events w (events w ++ [EvPrint (PText "Reading config file")])).
Proof.
  assert (Hc : JsonText.comma_before_close DEFAULT_FILTER = true)
    by (vm_compute; reflexivity).
  split; [exact Hc|].
  destruct (Hstrict DEFAULT_FILTER Hc) as [e He].
  pose proof (Constants_init_cases cfg w) as Hi.
  rewrite Hp, Harn, Hfilter in Hi. cbn [get_or] in Hi. rewrite He in Hi.
  destruct (int (get_or (cfg_scrape_interval cfg) (YInt 1))) as [days|e1];
    [|exists e1; now apply main_config_error].
  destruct (int (get_or (cfg_port cfg) (YInt 4298))) as [prt|e2];
    [|exists e2; now apply main_config_error].
  exists e. now apply main_config_error.
Qed.

Lemma X2_default_filter_is_refused_witness :
  exists e,
    main (Some (Ok (Mapping
            {| cfg_scrape_interval := None; cfg_port := None;
               cfg_project := Some "acme";
               cfg_role_arn := Some Scenario.acme_arn;
               cfg_region := Some "eu-west-1"; cfg_cost_type := None;
               cfg_filter := None |})))
         (Scenario.scrape_world Scenario.ce_answers)
    = (Raise e,
       with_events (Scenario.scrape_world Scenario.ce_answers)
         [EvPrint (PText "Reading config file")]).
Proof.
  refine (proj2 (X2_default_filter_is_refused
                   {| cfg_scrape_interval := None; cfg_port := None;
                      cfg_project := Some "acme";
                      cfg_role_arn := Some Scenario.acme_arn;
                      cfg_region := Some "eu-west-1"; cfg_cost_type := None;
                      cfg_filter := None |}
                   (Scenario.scrape_world Scenario.ce_answers)
                   "acme" Scenario.acme_arn _ eq_refl eq_refl eq_refl)).
  intros text Hc. exists JSONDecodeError.
  unfold Scenario.scrape_world, Scenario.world, Scenario.loads_null.
  cbn [json_loads].
  destruct (String.eqb text "null") eqn:E; [|reflexivity].
  apply String.eqb_eq in E. subst text. discriminate Hc.
Defined.

(** The scanner tells the default filter from the same filter without the
    comma, and does not look into string literals. *)
Example comma_before_close_examples :
  JsonText.comma_before_close DEFAULT_FILTER = true
  /\ JsonText.comma_before_close
       ("{" ++ quoted "Not" ++ ": {" ++ quoted "Dimensions" ++ ": {"
        ++ quoted "Key" ++ ": " ++ quoted "RECORD_TYPE" ++ ", "
        ++ quoted "Values" ++ ": [" ++ quoted "Credit" ++ ", "
        ++ quoted "Refund" ++ "] }}}") = false
  /\ JsonText.comma_before_close ("[" ++ quoted "a,}" ++ "]") = false
  /\ JsonText.comma_before_close "[1, ]" = true.
Proof. repeat split; vm_compute; reflexivity. Qed.

(* --------------------------------------------------------------------- *)
(** *** What a scrape does and does not do *)

(** X3. A scrape sends one billing query and does nothing else to its
    surroundings: it does not read the clock into the query, assume the
    role, create a client or change the default session.  It prints one
    line, the stored window with the costs, exactly when it yields. *)
Theorem X3_scrape_effects (self : AWSCostMetricCollector) (w : World) :
  let w' := snd (collect self w) in
  default_session w' = default_session w
  /\ clock w' = clock w
  /\ sts_assume_role w' = sts_assume_role w
  /\ ce_get_cost_and_usage w' = ce_get_cost_and_usage w
  /\ match fst (collect self w) with
     | Ok metrics =>
         exists costs,
           aggregate_answer self w = Ok costs
           /\ events w'
              = (events w
                 ++ [query_event self;
                     EvPrint (PCosts (self_time_range self) costs)])%list
     | Raise e => events w' = (events w ++ [query_event self])%list
     end.
Proof.
  rewrite collect_run, get_aws_cost_run.
  unfold aggregate_answer.
  destruct (rbind (answer self w) _) as [costs|e]; cbn;
    repeat split; eauto.
Qed.

(** X4. What the constructor obtained reaches every later query: the
    credentials the identity service granted, in the configured region,
    the window of the construction day, the configured cost type and the
    filter as configured, with daily granularity and grouping by
    service. *)
Theorem X4_construction_settings_reach_every_query
    (p arn reg ct : string) (flt : json) (w : World)
    (granted : AssumeRoleResponse) (window : TimeRange)
    (Hs : sts_assume_role w arn "inv_master" = Ok granted)
    (Hw : computeWindow (clock w) = Ok window) :
  exists self w',
    AWSCostMetricCollector_init p arn reg ct flt w = (Ok self, w')
    /\ forall w2,
         exists rest,
           events (snd (collect self w2))
           = (events w2
              ++ EvGetCostAndUsage
                   (AssumedSession reg
                      (AccessKeyId (RoleCredentials granted))
                      (SecretAccessKey (RoleCredentials granted))
                      (SessionToken (RoleCredentials granted)))
                   {| Request.TimePeriod := window;
                      Request.Granularity := "DAILY";
                      Request.Metrics := [ct];
                      Request.Filter := flt;
                      Request.GroupBy :=
                        [{| Type_ := "DIMENSION"; Key := "SERVICE" |}] |}
              :: rest)%list.
Proof.
  rewrite AWSCostMetricCollector_init_run, Hs. cbv zeta. rewrite Hw.
  eexists. eexists. split; [reflexivity|].
  intros w2. rewrite collect_run, get_aws_cost_run.
  destruct (rbind (answer _ w2) _) as [costs|e]; cbn; eauto.
Qed.

Lemma X4_construction_settings_reach_every_query_witness :
  exists self w',
    AWSCostMetricCollector_init "acme" Scenario.acme_arn "eu-west-1"
      "AmortizedCost" JNull
      (Scenario.world (Scenario.at_time 2024 3 1 10 0 0)
         Scenario.sts_grants Scenario.ce_answers None)
    = (Ok self, w')
    /\ self_time_range self
       = {| Start := "2024-02-29"; End_ := "2024-03-01" |}.
Proof.
  destruct (X4_construction_settings_reach_every_query
              "acme" Scenario.acme_arn "eu-west-1" "AmortizedCost" JNull
              (Scenario.world (Scenario.at_time 2024 3 1 10 0 0)
                 Scenario.sts_grants Scenario.ce_answers None)
              _ _ eq_refl eq_refl)
    as (self & w' & Hinit & _).
  exists self, w'. split; [exact Hinit|].
  vm_compute in Hinit. injection Hinit as <- _. reflexivity.
Defined.

(** X5. The constructor replaces the default session of the process: a
    collector constructed after another one calls the identity service
    through a client on the first collector's assumed-role session, not
    on the ambient credentials. *)
Theorem X5_second_collector_inherits_session
    (p1 arn1 reg1 ct1 p2 arn2 reg2 ct2 : string) (flt1 flt2 : json)
    (w w1 w2 : World) (c1 c2 : AWSCostMetricCollector)
    (H1 : AWSCostMetricCollector_init p1 arn1 reg1 ct1 flt1 w = (Ok c1, w1))
    (H2 : AWSCostMetricCollector_init p2 arn2 reg2 ct2 flt2 w1 = (Ok c2, w2)) :
  default_session w1 = Some (client_session (self_ce c1))
  /\ client_session (self_sts c2) = client_session (self_ce c1)
  /\ exists granted,
       sts_assume_role w arn1 "inv_master" = Ok granted
       /\ client_session (self_ce c1)
          = AssumedSession reg1
              (AccessKeyId (RoleCredentials granted))
              (SecretAccessKey (RoleCredentials granted))
              (SessionToken (RoleCredentials granted)).
Proof.
  rewrite AWSCostMetricCollector_init_run in H1, H2.
  destruct (sts_assume_role w arn1 "inv_master") as [g1|e1] eqn:E1;
    [|discriminate H1].
  cbv zeta in H1.
  destruct (computeWindow (clock w)) as [win1|e1]; [|discriminate H1].
  injection H1 as <- <-.
  cbn [default_session with_events with_default_session self_ce
       client_session sts_assume_role clock get_or] in *.
  destruct (sts_assume_role w arn2 "inv_master") as [g2|e2];
    [|discriminate H2].
  cbv zeta in H2.
  destruct (computeWindow (clock w)) as [win2|e2]; [|discriminate H2].
  injection H2 as <- _.
  cbn [self_sts client_session]. eauto.
Qed.

Lemma X5_second_collector_inherits_session_witness :
  exists c2 w2,
    AWSCostMetricCollector_init "other" "arn:aws:iam::456:role/y"
      "us-east-1" "AmortizedCost" JNull
      (snd (AWSCostMetricCollector_init "acme" Scenario.acme_arn "eu-west-1"
              "AmortizedCost" JNull
              (Scenario.world (Scenario.at_time 2024 3 1 10 0 0)
                 Scenario.sts_grants Scenario.ce_answers None)))
    = (Ok c2, w2)
    /\ client_session (self_sts c2) = Scenario.acme_session.
Proof.
  set (w0 := Scenario.world (Scenario.at_time 2024 3 1 10 0 0)
               Scenario.sts_grants Scenario.ce_answers None).
  set (r1 := AWSCostMetricCollector_init "acme" Scenario.acme_arn "eu-west-1"
               "AmortizedCost" JNull w0).
  set (r2 := AWSCostMetricCollector_init "other" "arn:aws:iam::456:role/y"
               "us-east-1" "AmortizedCost" JNull (snd r1)).
  set (c2 := {| self_project := "other";
                self_role_arn := "arn:aws:iam::456:role/y";
                self_region := "us-east-1";
                self_sts := {| client_service := "sts";
                               client_session := Scenario.acme_session |};
                self_ce := {| client_service := "ce";
                              client_session :=
                                AssumedSession "us-east-1" "ASIAEXAMPLE"
                                  "secret" "token" |};
                self_time_range :=
                  {| Start := "2024-02-29"; End_ := "2024-03-01" |};
                self_cost_type := "AmortizedCost";
                self_cost_filter := JNull |}).
  assert (H1 : r1 = (Ok (Scenario.acme_collector "AmortizedCost"), snd r1))
    by (vm_compute; reflexivity).
  assert (H2 : r2 = (Ok c2, snd r2)) by (vm_compute; reflexivity).
  exists c2, (snd r2). split; [exact H2|].
  rewrite (proj1 (proj2 (X5_second_collector_inherits_session
                           "acme" Scenario.acme_arn "eu-west-1"
                           "AmortizedCost"
                           "other" "arn:aws:iam::456:role/y" "us-east-1"
                           "AmortizedCost" JNull JNull
                           w0 (snd r1) (snd r2)
                           (Scenario.acme_collector "AmortizedCost") c2
                           H1 H2))).
  reflexivity.
Defined.

(** X6. An answer of the billing service without a time period makes the
    scrape raise [IndexError]: nothing is yielded and nothing printed. *)
Theorem X6_no_time_period (self : AWSCostMetricCollector) (w : World)
    (resp : CostResponse)
    (Hq : answer self w = Ok resp)
    (He : ResultsByTime resp = []) :
  collect self w
  = (Raise IndexError, with_events w (events w ++ [query_event self])).
Proof.
  rewrite collect_run, get_aws_cost_run, Hq. cbn [rbind].
  unfold list_getitem. rewrite He. reflexivity.
Qed.

Lemma X6_no_time_period_witness :
  fst (collect (Scenario.acme_collector "AmortizedCost")
               (Scenario.scrape_world
                  (Cases.ce_returns {| ResultsByTime := [] |})))
  = Raise IndexError.
Proof.
  rewrite (X6_no_time_period
             (Scenario.acme_collector "AmortizedCost")
             (Scenario.scrape_world
                (Cases.ce_returns {| ResultsByTime := [] |}))
             {| ResultsByTime := [] |} eq_refl eq_refl).
  reflexivity.
Defined.

(* --------------------------------------------------------------------- *)
(** *** Groups the loop cannot read *)

(** Whether a group can be read does not depend on what was read before. *)
Lemma cost_step_error_any_acc (acc acc' : CostAsPerService) (r : Group)
    (e : exn) :
  cost_step acc r = Raise e -> cost_step acc' r = Raise e.
Proof.
  unfold cost_step.
  destruct (amortized_amount r) as [amount|e1]; cbn [rbind]; [|exact id].
  destruct (PyFloat.of_string amount) as [f|e1]; cbn [rbind]; [|exact id].
  destruct (PyFloat.ceil f) as [c|e1]; cbn [rbind]; [|exact id].
  destruct (list_getitem (Keys r) 0) as [k|e1]; cbn [rbind]; [|exact id].
  discriminate.
Qed.

Lemma aggregate_stops (pre post : list Group) (rows : list row) (bad : Group)
    (e : exn) :
  Forall2 reads pre rows ->
  cost_step {| Cost := PyDict.empty; Total := PyFloat.zero |} bad = Raise e ->
  aggregate (pre ++ bad :: post) = Raise e.
Proof.
  intros Hpre Hbad. unfold aggregate.
  rewrite for_each_app, (for_each_reads _ _ Hpre). cbn [rbind for_each].
  now rewrite (cost_step_error_any_acc _ _ _ _ Hbad).
Qed.

(** X7. One group the loop cannot read aborts the whole scrape: with
    readable groups before it and whatever after it, the scrape raises
    the exception of that group, yields no metric, not even for the
    groups already read, and prints nothing. *)
Theorem X7_one_bad_group_aborts (self : AWSCostMetricCollector) (w : World)
    (resp : CostResponse) (first : ResultByTime)
    (pre post : list Group) (rows : list row) (bad : Group) (e : exn)
    (Hq : answer self w = Ok resp)
    (Hf : nth_error (ResultsByTime resp) 0 = Some first)
    (Hg : Groups first = (pre ++ bad :: post)%list)
    (Hpre : Forall2 reads pre rows)
    (Hbad : cost_step {| Cost := PyDict.empty; Total := PyFloat.zero |} bad
            = Raise e) :
  collect self w
  = (Raise e, with_events w (events w ++ [query_event self])).
Proof.
  rewrite collect_run, get_aws_cost_run, Hq. cbn [rbind].
  unfold list_getitem. rewrite Hf. cbn [or_raise rbind].
  rewrite Hg, (aggregate_stops _ _ _ _ _ Hpre Hbad). reflexivity.
Qed.

Lemma X7_one_bad_group_aborts_witness :
  fst (collect (Scenario.acme_collector "AmortizedCost")
         (Scenario.scrape_world
            (Cases.ce_returns (Cases.one_day Cases.with_bad_amount))))
  = Raise ValueError.
Proof.
  rewrite (X7_one_bad_group_aborts
             (Scenario.acme_collector "AmortizedCost")
             (Scenario.scrape_world
                (Cases.ce_returns (Cases.one_day Cases.with_bad_amount)))
             (Cases.one_day Cases.with_bad_amount)
             {| Groups := Cases.with_bad_amount |}
             [api_group "AmortizedCost" "Amazon S3" "3.10"]
             [api_group "AmortizedCost" "AWS Lambda" "1"]
             [{| row_key := "Amazon S3"; row_amount := "3.10";
                 row_float := S754_finite false 6980579422424269 (-51);
                 row_ceil := 4 |}]
             (api_group "AmortizedCost" "Tax" "n/a")
             ValueError eq_refl eq_refl eq_refl).
  - reflexivity.
  - constructor; [|constructor].
    apply reads_api_group; vm_compute; reflexivity.
  - vm_compute. reflexivity.
Defined.

(** X8. What makes a group unreadable, in the order the loop meets it: no
    "AmortizedCost" metric, [KeyError] for that name; no amount,
    [KeyError] for "Amount"; an amount that is not a number,
    [ValueError]; an infinite one, [OverflowError]; a NaN, [ValueError];
    and, with a finite amount, no key, [IndexError].  A decimal comma is
    not a number, and neither is a number with a separator character
    (FS..US) before it, which [str.split] would take for whitespace:
    such an amount raises [ValueError] even in a group without keys. *)
Theorem X8_unreadable_groups (acc : CostAsPerService) (r : Group) :
  (PyDict.get (Metrics r) "AmortizedCost" = None ->
   cost_step acc r = Raise (KeyError "AmortizedCost"))
  /\ (forall m,
        PyDict.get (Metrics r) "AmortizedCost" = Some m ->
        (Amount m = None -> cost_step acc r = Raise (KeyError "Amount"))
        /\ (forall a,
              Amount m = Some a ->
              (forall e, PyFloat.of_string a = Raise e ->
                         e = ValueError
                         /\ cost_step acc r = Raise ValueError)
              /\ (forall s, PyFloat.of_string a = Ok (S754_infinity s) ->
                            cost_step acc r = Raise OverflowError)
              /\ (PyFloat.of_string a = Ok S754_nan ->
                  cost_step acc r = Raise ValueError)
              /\ (forall f c,
                    PyFloat.of_string a = Ok f -> PyFloat.ceil f = Ok c ->
                    Keys r = [] -> cost_step acc r = Raise IndexError)))
  /\ PyFloat.of_string "12,40" = Raise ValueError
  /\ PyFloat.of_string "" = Raise ValueError
  /\ map (fun n => PyFloat.of_string (chr n ++ "1.5")) [28; 29; 30; 31]
     = repeat (Raise ValueError) 4
  /\ cost_step acc
       {| Keys := [];
          Metrics := [("AmortizedCost",
                       {| Amount := Some (chr 28 ++ "1.5");
                          Unit := Some "USD" |})] |}
     = Raise ValueError
  /\ cost_step acc
       {| Keys := [];
          Metrics := [("AmortizedCost",
                       {| Amount := Some (chr 32 ++ "1.5");
                          Unit := Some "USD" |})] |}
     = Raise IndexError.
Proof.
  unfold cost_step, amortized_amount, PyDict.getitem.
  split; [|split; [|repeat split; vm_compute; reflexivity]].
  - intros Hm. rewrite Hm. reflexivity.
  - intros m Hm. rewrite Hm. cbn [or_raise rbind]. split.
    + intros Ha. rewrite Ha. reflexivity.
    + intros a Ha. rewrite Ha. cbn [or_raise rbind].
      split; [|split; [|split]].
      * intros e He. rewrite He. cbn [rbind].
        unfold PyFloat.of_string in He.
        destruct (PyFloat.of_stripped _); [discriminate He|].
        injection He as <-. split; reflexivity.
      * intros s Hs. rewrite Hs. reflexivity.
      * intros Hn. rewrite Hn. reflexivity.
      * intros f c Hf Hc Hk. rewrite Hf. cbn [rbind]. rewrite Hc, Hk.
        reflexivity.
Qed.

Lemma X8_unreadable_groups_witness :
  cost_step {| Cost := PyDict.empty; Total := PyFloat.zero |}
            {| Keys := ["Tax"];
               Metrics := [("AmortizedCost",
                            {| Amount := None; Unit := Some "USD" |})] |}
  = Raise (KeyError "Amount").
Proof.
  apply (proj1 (proj1 (proj2
           (X8_unreadable_groups
              {| Cost := PyDict.empty; Total := PyFloat.zero |}
              {| Keys := ["Tax"];
                 Metrics := [("AmortizedCost",
                              {| Amount := None; Unit := Some "USD" |})] |}))
           {| Amount := None; Unit := Some "USD" |} eq_refl)).
  reflexivity.
Defined.

Lemma get_absent_key {V : Type} (d : PyDict.dict V) (k k' : string) :
  PyDict.keys d = [k] -> k <> k' -> PyDict.get d k' = None.
Proof.
  destruct d as [|[k0 v] [|? ?]]; try discriminate.
  intros [= ->] Hne. simpl. apply String.eqb_neq in Hne. now rewrite Hne.
Qed.

(** X9. Only the cost type "AmortizedCost" can be collected.  With any
    other configured cost type and a service that returns, in each group,
    the metric the query asked for, every scrape whose answer has a group
    raises [KeyError] for "AmortizedCost" and yields nothing. *)
Theorem X9_other_cost_types_never_collect (self : AWSCostMetricCollector)
    (w : World) (resp : CostResponse) (first : ResultByTime)
    (g : Group) (rest : list Group)
    (Hct : self_cost_type self <> "AmortizedCost")
    (Hq : answer self w = Ok resp)
    (Hf : nth_error (ResultsByTime resp) 0 = Some first)
    (Hg : Groups first = g :: rest)
    (Hm : PyDict.keys (Metrics g) = Request.Metrics (cost_request self)) :
  collect self w
  = (Raise (KeyError "AmortizedCost"),
     with_events w (events w ++ [query_event self])).
Proof.
  rewrite collect_run, get_aws_cost_run, Hq. cbn [rbind].
  unfold list_getitem. rewrite Hf. cbn [or_raise rbind]. rewrite Hg.
  unfold aggregate. cbn [for_each].
  unfold cost_step at 1. unfold amortized_amount, PyDict.getitem.
  rewrite (get_absent_key _ _ _ Hm Hct). reflexivity.
Qed.

Lemma X9_other_cost_types_never_collect_witness :
  fst (collect (Scenario.acme_collector "BlendedCost")
               (Scenario.scrape_world Scenario.ce_answers))
  = Raise (KeyError "AmortizedCost").
Proof.
  rewrite (X9_other_cost_types_never_collect
             (Scenario.acme_collector "BlendedCost")
             (Scenario.scrape_world Scenario.ce_answers)
             (Cases.one_day
                [api_group "BlendedCost" "Amazon Elastic Compute Cloud" "12.40";
                 api_group "BlendedCost" "Amazon Simple Storage Service" "3.10"])
             {| Groups :=
                  [api_group "BlendedCost" "Amazon Elastic Compute Cloud"
                     "12.40";
                   api_group "BlendedCost" "Amazon Simple Storage Service"
                     "3.10"] |}
             (api_group "BlendedCost" "Amazon Elastic Compute Cloud" "12.40")
             [api_group "BlendedCost" "Amazon Simple Storage Service" "3.10"]).
  - reflexivity.
  - discriminate.
  - reflexivity.
  - reflexivity.
  - reflexivity.
  - reflexivity.
Defined.

(* --------------------------------------------------------------------- *)
(** *** Names that share a key *)

Section Runs.
Import PyStr.

Lemma split_from_empty_word (w : string) :
  split_from w "" = if is_empty w then [] else [w].
Proof. reflexivity. Qed.

(** Whitespace at the front closes the word being read and is skipped. *)
Lemma split_from_space_run (ws b w : string) :
  is_space_run ws = true ->
  split_from w (ws ++ b) = (split_from w "" ++ split b)%list.
Proof.
  unfold is_space_run. destruct ws as [|c ws]; [discriminate|].
  cbn [is_empty negb andb all_space]. intros H.
  apply andb_true_iff in H as [Hc Hws].
  cbn [append split_from]. rewrite Hc.
  assert (Hskip : split_from "" (ws ++ b) = split b).
  { clear Hc c. induction ws as [|c ws IH]; [reflexivity|].
    cbn [all_space] in Hws. apply andb_true_iff in Hws as [Hc Hws].
    cbn [append split_from]. rewrite Hc. cbn [is_empty]. now apply IH. }
  rewrite Hskip. now destruct (is_empty w).
Qed.

(** A run of whitespace inside a name separates the words before it from
    the words after it. *)
Lemma split_from_app_run (a ws b w : string) :
  is_space_run ws = true ->
  split_from w (a ++ ws ++ b) = (split_from w a ++ split b)%list.
Proof.
  intros Hws. revert w; induction a as [|c a IH]; intros w.
  - cbn [append]. now apply split_from_space_run.
  - cbn [append split_from]. destruct (isspace c).
    + destruct (is_empty w); rewrite IH; reflexivity.
    + apply IH.
Qed.

End Runs.

(** X10. The key of a service does not tell apart names that differ in
    their whitespace: any non-empty run of whitespace between two parts
    gives the same key as any other, whitespace at either end is
    dropped, and a run between two parts without whitespace gives the
    key of the name written with an underscore there. *)
Theorem X10_names_sharing_a_key (a b ws ws' : string)
    (Hws : is_space_run ws = true) (Hws' : is_space_run ws' = true) :
  normalize_service (a ++ ws ++ b) = normalize_service (a ++ ws' ++ b)
  /\ normalize_service (ws ++ b) = normalize_service b
  /\ normalize_service (a ++ ws) = normalize_service a
  /\ (PyStr.has_space a = false -> PyStr.has_space b = false ->
      PyStr.is_empty a = false -> PyStr.is_empty b = false ->
      normalize_service (a ++ ws ++ b) = a ++ "_" ++ b
      /\ normalize_service (a ++ "_" ++ b) = a ++ "_" ++ b).
Proof.
  unfold normalize_service, PyStr.split.
  split; [|split; [|split]].
  - now rewrite !split_from_app_run.
  - now rewrite split_from_space_run.
  - replace (a ++ ws) with (a ++ ws ++ "")
      by now rewrite append_empty_r.
    rewrite split_from_app_run by assumption.
    now rewrite app_nil_r.
  - intros Ha Hb Ea Eb. split.
    + rewrite split_from_app_run by assumption. unfold PyStr.split.
      rewrite (split_from_no_space _ _ Ha), (split_from_no_space b "" Hb).
      cbn [append]. rewrite Ea, Eb. reflexivity.
    + fold (PyStr.split (a ++ "_" ++ b)).
      fold (normalize_service (a ++ "_" ++ b)).
      apply normalize_fixed.
      rewrite !has_space_append, Ha, Hb. reflexivity.
Qed.

Lemma X10_names_sharing_a_key_witness :
  normalize_service "Amazon  Route 53" = normalize_service "Amazon Route 53"
  /\ normalize_service "Amazon S3" = normalize_service "Amazon_S3".
Proof.
  split.
  - apply (proj1 (X10_names_sharing_a_key "Amazon" "Route 53" "  " " "
                    eq_refl eq_refl)).
  - destruct (proj2 (proj2 (proj2
                (X10_names_sharing_a_key "Amazon" "S3" " " " "
                   eq_refl eq_refl)))
                eq_refl eq_refl eq_refl eq_refl) as [H1 H2].
    change (normalize_service ("Amazon" ++ " " ++ "S3")
            = normalize_service ("Amazon" ++ "_" ++ "S3")).
    now rewrite H1, H2.
Defined.

(* --------------------------------------------------------------------- *)
(** *** Windows of all days *)

Section Windows.
Import PyDate PyDateSpec.

Lemma ymd2ord_year_inj (y m d y' m' d' : Z) :
  check_date_fields y m d = true ->
  check_date_fields y' m' d' = true ->
  ymd2ord y m d = ymd2ord y' m' d' -> y = y'.
Proof.
  intros H H' E.
  pose proof (ymd2ord_bounds _ _ _ H) as B.
  pose proof (ymd2ord_bounds _ _ _ H') as B'.
  destruct (Z.lt_trichotomy y y') as [Hlt|[Heq|Hgt]]; [|exact Heq|].
  - pose proof (days_before_year_mono (y + 1) y' ltac:(lia)). lia.
  - pose proof (days_before_year_mono (y' + 1) y ltac:(lia)). lia.
Qed.

Lemma ymd2ord_inj (y m d y' m' d' : Z) :
  check_date_fields y m d = true ->
  check_date_fields y' m' d' = true ->
  ymd2ord y m d = ymd2ord y' m' d' -> (y, m, d) = (y', m', d').
Proof.
  intros H H' E.
  pose proof (ymd2ord_year_inj _ _ _ _ _ _ H H' E) as <-.
  apply check_date_fields_iff in H as (_ & Hm & Hd).
  apply check_date_fields_iff in H' as (_ & Hm' & Hd').
  unfold ymd2ord, days_before_month in E.
  unfold days_in_month in Hd, Hd'.
  assert (m = m' /\ d = d') as [-> ->]; [|reflexivity].
  destruct (is_leap y);
    destruct (month_cases m Hm) as
      [->|[->|[->|[->|[->|[->|[->|[->|[->|[->|[->| ->]]]]]]]]]]];
    destruct (month_cases m' Hm') as
      [->|[->|[->|[->|[->|[->|[->|[->|[->|[->|[->| ->]]]]]]]]]]];
    vm_compute table in *; vm_compute Z.ltb in *; vm_compute Z.eqb in *;
    cbn [andb] in *; lia.
Qed.

(** The ordinal of a date leads back to the date. *)
Lemma ord2ymd_ymd2ord (y m d : Z) :
  check_date_fields y m d = true -> ord2ymd (ymd2ord y m d) = (y, m, d).
Proof.
  intros H.
  pose proof (ymd2ord_bounds _ _ _ H) as B.
  assert (H0 : 0 <= days_before_year y).
  { apply check_date_fields_iff in H as (Hy & _ & _).
    pose proof (days_before_year_mono 1 y ltac:(lia)) as Hm.
    change (days_before_year 1) with 0 in Hm. exact Hm. }
  pose proof (ord2ymd_spec (ymd2ord y m d) ltac:(lia)) as S.
  destruct (ord2ymd (ymd2ord y m d)) as [[y' m'] d'].
  destruct S as (Hrt & Hm' & Hd' & Hy' & Hlt).
  apply ymd2ord_inj; [|exact H|exact Hrt].
  apply check_date_fields_iff. repeat split; try lia.
  apply check_date_fields_iff in H as (Hy & _ & _).
  destruct (Z_le_gt_dec y' 9999) as [|Hgt]; [assumption|].
  pose proof (days_before_year_mono (y + 1) y' ltac:(lia)). lia.
Qed.

Lemma first_day_ordinal (y m d : Z) :
  check_date_fields y m d = true ->
  (y, m, d) <> (1, 1, 1) -> 1 < ymd2ord y m d.
Proof.
  intros H Hne.
  pose proof (ymd2ord_bounds _ _ _ H) as B.
  apply check_date_fields_iff in H as (Hy & Hm & Hd).
  destruct (Z.eq_dec y 1) as [->|Hy1].
  - unfold ymd2ord, days_before_month.
    change (days_before_year 1) with 0. change (is_leap 1) with false.
    destruct (month_cases m Hm) as
      [->|[->|[->|[->|[->|[->|[->|[->|[->|[->|[->| ->]]]]]]]]]]];
      vm_compute table; vm_compute Z.ltb; cbn [andb]; try lia.
    assert (d <> 1) by congruence. lia.
  - pose proof (days_before_year_mono 2 y ltac:(lia)) as Hmono.
    change (days_before_year 2) with 365 in Hmono. lia.
Qed.

Lemma length_append (a b : string) :
  String.length (a ++ b) = (String.length a + String.length b)%nat.
Proof. induction a as [|c a IH]; cbn; [reflexivity | now rewrite IH]. Qed.

(** The text of a date is as long as its year is: ten characters from
    the year 1000 on, fewer before. *)
Lemma strftime_ymd_length (t : datetime) :
  0 <= year t <= 9999 ->
  String.length (strftime_ymd t)
  = if year t <? 10 then 7%nat
    else if year t <? 100 then 8%nat
    else if year t <? 1000 then 9%nat else 10%nat.
Proof.
  intros Hy. unfold strftime_ymd, decimal, zfill.
  rewrite !length_append.
  destruct (Z.ltb_spec (year t) 10); [reflexivity|].
  destruct (Z.ltb_spec (year t / 10) 10);
    [destruct (Z.ltb_spec (year t) 100);
     [reflexivity | exfalso; Z.div_mod_to_equations; lia]|].
  destruct (Z.ltb_spec (year t) 100);
    [exfalso; Z.div_mod_to_equations; lia|].
  destruct (Z.ltb_spec (year t / 10 / 10) 10);
    [destruct (Z.ltb_spec (year t) 1000);
     [reflexivity | exfalso; Z.div_mod_to_equations; lia]|].
  destruct (Z.ltb_spec (year t) 1000);
    [exfalso; Z.div_mod_to_equations; lia|].
  destruct (Z.ltb_spec (year t / 10 / 10 / 10) 10);
    [reflexivity | exfalso; Z.div_mod_to_equations; lia].
Qed.

(** X11. When the window can be computed, by the date alone: every date
    of the calendar has one, its end the date and its start the day
    before, except 0001-01-01, where the subtraction raises
    [OverflowError]; what is no date of the calendar raises
    [ValueError].  The time of day plays no part.  The year is written
    without padding: before the year 1000 a bound has fewer than ten
    characters, as in the window "999-12-31" to "1000-01-01". *)
Theorem X11_window_of_every_date (now : datetime) :
  (check_date_fields (year now) (month now) (day now) = false ->
   computeWindow now = Raise ValueError)
  /\ (check_date_fields (year now) (month now) (day now) = true ->
      ((year now, month now, day now) = (1, 1, 1) ->
       computeWindow now = Raise OverflowError)
      /\ ((year now, month now, day now) <> (1, 1, 1) ->
          exists start,
            computeWindow now
            = Ok {| Start := strftime_ymd start; End_ := strftime_ymd now |}
            /\ toordinal start = toordinal now - 1
            /\ valid start = true
            /\ String.length (strftime_ymd now)
               = if year now <? 10 then 7%nat
                 else if year now <? 100 then 8%nat
                 else if year now <? 1000 then 9%nat else 10%nat))
  /\ map (fun '(y, m, d) => computeWindow (Scenario.at_time y m d 12 0 0))
         [(1000, 1, 1); (999, 3, 1); (5, 1, 2); (2024, 3, 1)]
     = [Ok {| Start := "999-12-31"; End_ := "1000-01-01" |};
        Ok {| Start := "999-02-28"; End_ := "999-03-01" |};
        Ok {| Start := "5-01-01"; End_ := "5-01-02" |};
        Ok {| Start := "2024-02-29"; End_ := "2024-03-01" |}].
Proof.
  split; [|split; [|vm_compute; reflexivity]].
  - intros H. unfold computeWindow, datetime_ymd. now rewrite H.
  - intros H. split.
    + intros [= Hy Hm Hd]. unfold computeWindow, datetime_ymd.
      rewrite Hy, Hm, Hd. reflexivity.
    + intros Hne.
      pose proof (first_day_ordinal _ _ _ H Hne) as Hord.
      destruct (sub_one_day_at_midnight _ _ _ H Hord)
        as (y' & m' & d' & Eo & Esub).
      pose proof (ord2ymd_spec
                    (ymd2ord (year now) (month now) (day now) - 1)
                    ltac:(lia)) as S.
      rewrite Eo in S. destruct S as (Hrt & Hm' & Hd' & Hy' & Hlt).
      pose proof (ymd2ord_bounds _ _ _ H) as B.
      apply check_date_fields_iff in H as Hf. destruct Hf as (Hy & _ & _).
      assert (Hmax : y' <= 9999).
      { destruct (Z_le_gt_dec y' 9999) as [|Hgt]; [assumption|].
        pose proof (days_before_year_mono (year now + 1) y' ltac:(lia)).
        lia. }
      exists {| year := y'; month := m'; day := d';
                hour := 0; minute := 0; second := 0; microsecond := 0 |}.
      split; [|split; [|split]].
      * unfold computeWindow, datetime_ymd. rewrite H. cbn [rbind].
        rewrite Esub. reflexivity.
      * unfold toordinal. cbn [year month day]. exact Hrt.
      * unfold valid. cbn [year month day hour minute second microsecond].
        apply andb_true_iff. split; [|reflexivity].
        apply check_date_fields_iff. lia.
      * apply strftime_ymd_length. lia.
Qed.

Lemma X11_window_of_every_date_witness :
  exists start,
    computeWindow (Scenario.at_time 1600 3 1 23 59 59)
    = Ok {| Start := strftime_ymd start; End_ := "1600-03-01" |}
    /\ toordinal start = toordinal (Scenario.at_time 1600 2 29 0 0 0).
Proof.
  destruct (proj2 (proj1 (proj2 (X11_window_of_every_date
                                   (Scenario.at_time 1600 3 1 23 59 59)))
                     eq_refl)
              ltac:(discriminate))
    as (start & Hw & Hord & _).
  exists start. split; [exact Hw|]. rewrite Hord. reflexivity.
Defined.

(** X12. The windows of two consecutive days are adjacent: the window of
    the later day starts where the window of the earlier day ends, at
    the earlier day, in the same text; so the window of 1000-01-01
    starts at "999-12-31". *)
Theorem X12_windows_of_consecutive_days (today tomorrow : datetime)
    (Ht : check_date_fields (year today) (month today) (day today) = true)
    (Hn : check_date_fields (year tomorrow) (month tomorrow) (day tomorrow)
          = true)
    (Hnext : toordinal tomorrow = toordinal today + 1) :
  computeWindow tomorrow
  = Ok {| Start := strftime_ymd today; End_ := strftime_ymd tomorrow |}
  /\ (forall window, computeWindow today = Ok window ->
                     End_ window = strftime_ymd today)
  /\ computeWindow (Scenario.at_time 1000 1 1 0 0 0)
     = Ok {| Start := "999-12-31"; End_ := "1000-01-01" |}
  /\ computeWindow (Scenario.at_time 999 12 31 0 0 0)
     = Ok {| Start := "999-12-30"; End_ := "999-12-31" |}.
Proof.
  split; [|split; [|split; vm_compute; reflexivity]].
  - unfold toordinal in Hnext.
    pose proof (ymd2ord_bounds _ _ _ Ht) as B.
    assert (H0 : 0 <= days_before_year (year today)).
    { apply check_date_fields_iff in Ht as (Hy & _ & _).
      pose proof (days_before_year_mono 1 (year today) ltac:(lia)) as Hm.
      change (days_before_year 1) with 0 in Hm. exact Hm. }
    destruct (sub_one_day_at_midnight _ _ _ Hn ltac:(lia))
      as (y' & m' & d' & Eo & Esub).
    rewrite Hnext in Eo.
    replace (ymd2ord (year today) (month today) (day today) + 1 - 1)
      with (ymd2ord (year today) (month today) (day today)) in Eo by lia.
    rewrite (ord2ymd_ymd2ord _ _ _ Ht) in Eo. injection Eo as <- <- <-.
    unfold computeWindow, datetime_ymd. rewrite Hn. cbn [rbind].
    rewrite Esub. reflexivity.
  - intros window. unfold computeWindow, datetime_ymd. rewrite Ht.
    cbn [rbind]. destruct (sub _ _); cbn [rbind]; [|discriminate].
    now intros [= <-].
Qed.

Lemma X12_windows_of_consecutive_days_witness :
  computeWindow (Scenario.at_time 2025 1 1 0 0 0)
  = Ok {| Start := "2024-12-31"; End_ := "2025-01-01" |}.
Proof.
  apply (proj1 (X12_windows_of_consecutive_days
                  (Scenario.at_time 2024 12 31 23 59 59)
                  (Scenario.at_time 2025 1 1 0 0 0)
                  eq_refl eq_refl eq_refl)).
Defined.

End Windows.

(* --------------------------------------------------------------------- *)
(** *** The order of the samples *)

Lemma keys_set {V : Type} (d : PyDict.dict V) (k : string) (v : V) :
  PyDict.keys (PyDict.set d k v)
  = if existsb (String.eqb k) (PyDict.keys d)
    then PyDict.keys d
    else (PyDict.keys d ++ [k])%list.
Proof.
  unfold PyDict.keys. induction d as [|[k0 v0] d IH]; [reflexivity|].
  cbn [PyDict.set map fst existsb]. rewrite (String.eqb_sym k k0).
  destruct (String.eqb k0 k); cbn [map fst orb]; [reflexivity|].
  rewrite IH. now destruct (existsb _ _).
Qed.

Lemma keys_fold (rows : list row) (acc : CostAsPerService) :
  PyDict.keys (Cost (fold_left apply_row rows acc))
  = fold_left
      (fun seen k =>
         if existsb (String.eqb k) seen then seen else (seen ++ [k])%list)
      (map (fun x => normalize_service (row_key x)) rows)
      (PyDict.keys (Cost acc)).
Proof.
  revert acc; induction rows as [|x rows IH]; intros acc; [reflexivity|].
  cbn [fold_left map]. rewrite IH. cbn [apply_row Cost].
  now rewrite keys_set.
Qed.

(** X13. The samples of the services come in the order in which the
    services first appear in the answer, each service once, and the
    sample of the total, which has no service label, comes last. *)
Theorem X13_sample_order (self : AWSCostMetricCollector) (w : World)
    (resp : CostResponse) (first : ResultByTime) (rows : list row)
    (Hq : answer self w = Ok resp)
    (Hf : nth_error (ResultsByTime resp) 0 = Some first)
    (Hr : Forall2 reads (Groups first) rows) :
  exists metric,
    fst (collect self w) = Ok [metric]
    /\ map (fun s => PyDict.get (sample_labels s) "service") (samples metric)
       = (map Some
              (first_occurrences
                 (map (fun x => normalize_service (row_key x)) rows))
          ++ [None])%list.
Proof.
  eexists. rewrite collect_run, get_aws_cost_run, Hq. cbn [rbind].
  unfold list_getitem. rewrite Hf. cbn [or_raise rbind].
  rewrite (aggregate_reads _ _ Hr). cbn [fst].
  split; [reflexivity|]. cbn [samples].
  rewrite map_app, map_map. cbn [map total_sample sample_labels PyDict.get].
  f_equal. unfold first_occurrences.
  change (@nil string)
    with (PyDict.keys
            (Cost {| Cost := @PyDict.empty Z; Total := PyFloat.zero |})).
  rewrite <- keys_fold. unfold PyDict.keys. rewrite map_map.
  apply map_ext. intros [k c]. reflexivity.
Qed.

Lemma X13_sample_order_witness :
  exists metric,
    fst (collect (Scenario.acme_collector "AmortizedCost")
           (Scenario.scrape_world
              (Cases.ce_returns (Cases.one_day Cases.with_repeated_service))))
    = Ok [metric]
    /\ map (fun s => PyDict.get (sample_labels s) "service") (samples metric)
       = [Some "Amazon_Route_53"; Some "Tax"; None]
    /\ map value (samples metric)
       = [IntValue (-7); IntValue 2;
          FloatValue (S754_finite true (2 ^ 52) (-50))].
Proof.
  destruct (X13_sample_order
              (Scenario.acme_collector "AmortizedCost")
              (Scenario.scrape_world
                 (Cases.ce_returns
                    (Cases.one_day Cases.with_repeated_service)))
              (Cases.one_day Cases.with_repeated_service)
              {| Groups := Cases.with_repeated_service |}
              [{| row_key := "Amazon  Route 53"; row_amount := "1.5";
                  row_float := S754_finite false (3 * 2 ^ 51) (-52);
                  row_ceil := 2 |};
               {| row_key := "Tax"; row_amount := "2";
                  row_float := S754_finite false (2 ^ 52) (-51);
                  row_ceil := 2 |};
               {| row_key := "Amazon Route 53"; row_amount := "-7.5";
                  row_float := S754_finite true (15 * 2 ^ 49) (-50);
                  row_ceil := -7 |}]
              eq_refl eq_refl)
    as (metric & Hm & Hs).
  - repeat (constructor; [apply reads_api_group; vm_compute; reflexivity|]).
    constructor.
  - exists metric. split; [exact Hm|]. split; [exact Hs|].
    vm_compute in Hm. injection Hm as <-. reflexivity.
Defined.

(* --------------------------------------------------------------------- *)
(** *** A start-up that completes *)

Lemma existsb_eqb_false (k : string) (l : list string) :
  existsb (String.eqb k) l = false -> ~ In k l.
Proof.
  intros H Hin.
  assert (Ht : existsb (String.eqb k) l = true)
    by (apply existsb_exists; exists k; split;
        [exact Hin | apply String.eqb_refl]).
  congruence.
Qed.

(** X14. A start-up that completes had a configuration file holding a
    mapping with numbers for [scrape_interval] and [port], the keys
    [project] and [role_arn] and a filter the reader accepts; a port the
    system let it listen on; a role the identity service granted; and a
    billing service that answered the collection the registry runs when
    the collector is handed to it.  It started the server once, assumed
    the role once, sent one billing query, printed the costs and
    registered one collector, under a name that was new, as its last
    step; the billing client of that collector and the default session
    are on the granted credentials in the configured region. *)
Theorem X14_completed_startup (filepath : option (result document))
    (w w' : World) (H : main filepath w = (Ok tt, w')) :
  exists cfg days prt p arn flt granted costs,
    filepath = Some (Ok (Mapping cfg))
    /\ int (get_or (cfg_scrape_interval cfg) (YInt 1)) = Ok days
    /\ int (get_or (cfg_port cfg) (YInt 4298)) = Ok prt
    /\ cfg_project cfg = Some p
    /\ cfg_role_arn cfg = Some arn
    /\ json_loads w (get_or (cfg_filter cfg) DEFAULT_FILTER) = Ok flt
    /\ http_listen w prt = Ok tt
    /\ 0 <= prt <= 65535
    /\ sts_assume_role w arn "inv_master" = Ok granted
    /\ ~ In "aws_project_cost_as_per_service" (registry w)
    /\ let session :=
         AssumedSession (get_or (cfg_region cfg) "us-east-1")
           (AccessKeyId (RoleCredentials granted))
           (SecretAccessKey (RoleCredentials granted))
           (SessionToken (RoleCredentials granted)) in
       default_session w' = Some session
       /\ registry w'
          = (registry w ++ ["aws_project_cost_as_per_service"])%list
       /\ exists before c,
            events w'
            = (events w ++ before
               ++ [query_event c;
                   EvPrint (PCosts (self_time_range c) costs);
                   EvRegister c])%list
            /\ Trace.count Trace.is_server_start before = 1%nat
            /\ Trace.count Trace.is_assume_role before = 1%nat
            /\ Trace.count Trace.is_register before = 0%nat
            /\ Trace.count Trace.is_query before = 0%nat
            /\ In (EvStartHttpServer prt) before
            /\ client_session (self_ce c) = session
            /\ self_project c = p
            /\ computeWindow (clock w) = Ok (self_time_range c)
            /\ aggregate_answer c w = Ok costs.
Proof.
  destruct filepath as [[d|e]|];
    [|rewrite main_unreadable in H; discriminate H|discriminate H].
  destruct d as [cfg|];
    [|rewrite (main_config_error NotMapping w AttributeError eq_refl) in H;
      discriminate H].
  pose proof (Constants_init_cases cfg w) as Hc.
  destruct (int (get_or (cfg_scrape_interval cfg) (YInt 1)))
    as [days|e] eqn:Hdays;
    [|rewrite (main_config_error _ _ _ Hc) in H; discriminate H].
  destruct (int (get_or (cfg_port cfg) (YInt 4298))) as [prt|e] eqn:Hport;
    [|rewrite (main_config_error _ _ _ Hc) in H; discriminate H].
  destruct (cfg_project cfg) as [p|] eqn:Hp;
    [|rewrite (main_config_error _ _ _ Hc) in H; discriminate H].
  destruct (cfg_role_arn cfg) as [arn|] eqn:Ha;
    [|rewrite (main_config_error _ _ _ Hc) in H; discriminate H].
  destruct (json_loads w (get_or (cfg_filter cfg) DEFAULT_FILTER))
    as [flt|e] eqn:Hf;
    [|rewrite (main_config_error _ _ _ Hc) in H; discriminate H].
  rewrite (main_configured_run _ _ _ Hc) in H.
  cbv zeta in H. cbn [port project role_arn region cost_type cost_filter] in H.
  destruct (http_listen w prt) as [[]|e] eqn:Hl; [|discriminate H].
  destruct ((0 <=? prt) && (prt <=? 65535)) eqn:Hrange; [|discriminate H].
  apply andb_true_iff in Hrange as [Hlo Hhi].
  apply Z.leb_le in Hlo, Hhi.
  assert (Hport_range : 0 <= prt <= 65535) by (split; assumption).
  clear Hlo Hhi.
  rewrite AWSCostMetricCollector_init_run in H.
  cbn [sts_assume_role clock events default_session with_events] in H.
  destruct (sts_assume_role w arn "inv_master") as [granted|e] eqn:Hs;
    [|discriminate H].
  cbv zeta in H.
  destruct (computeWindow (clock w)) as [window|e] eqn:Hw;
    [|discriminate H].
  rewrite REGISTRY_register_run in H.
  unfold aggregate_answer, answer in H.
  cbn [ce_get_cost_and_usage with_events with_default_session registry
       events self_ce client_session self_time_range] in H.
  match type of H with
  | context [rbind (ce_get_cost_and_usage w ?s ?r) ?k] =>
      destruct (rbind (ce_get_cost_and_usage w s r) k) as [costs|e] eqn:Hq;
        [|discriminate H]
  end.
  cbv zeta in H.
  destruct (existsb _ (registry w)) eqn:Hfresh; [discriminate H|].
  apply existsb_eqb_false in Hfresh.
  injection H as <-.
  exists cfg, days, prt, p, arn, flt, granted, costs.
  do 10 (split; [first [reflexivity | assumption]|]).
  cbv zeta. split; [reflexivity|]. split; [reflexivity|].
  cbn [events with_events with_registry].
  match goal with
  | |- context [(((events w ++ ?A) ++ ?B) ++ [?Q; ?P; EvRegister ?C])%list] =>
      exists (A ++ B)%list, C
  end.
  split; [rewrite <- !app_assoc; reflexivity|].
  do 4 (split; [reflexivity|]).
  split; [cbn; tauto|].
  do 3 (split; [reflexivity|]).
  exact Hq.
Qed.

Lemma X14_completed_startup_witness :
  exists granted,
    sts_assume_role
      (Scenario.world (Scenario.at_time 2024 3 1 10 0 0)
         Scenario.sts_grants Scenario.ce_answers None)
      Scenario.acme_arn "inv_master"
    = Ok granted
    /\ AccessKeyId (RoleCredentials granted) = "ASIAEXAMPLE".
Proof.
  destruct (X14_completed_startup
              (Some (Ok (Mapping (Scenario.acme_config None))))
              (Scenario.world (Scenario.at_time 2024 3 1 10 0 0)
                 Scenario.sts_grants Scenario.ce_answers None)
              (snd (main (Some (Ok (Mapping (Scenario.acme_config None))))
                      (Scenario.world (Scenario.at_time 2024 3 1 10 0 0)
                         Scenario.sts_grants Scenario.ce_answers None))))
    as (cfg & days & prt & p & arn & flt & granted & costs
        & Hfp & _ & _ & _ & Ha & _ & _ & _ & Hs & _).
  - vm_compute. reflexivity.
  - injection Hfp as <-. injection Ha as <-.
    exists granted. split; [exact Hs|].
    vm_compute in Hs. injection Hs as <-. reflexivity.
Defined.
